(** * mne/montages/montage.py: [Montage] and [read_montage]

    A shallow embedding of the montage reader.  Python strings are
    [string]s, Python lists are [list]s, exceptions are values of [exn]
    carried by a small error monad that also records which files were
    opened.  Floating point numbers stay abstract: the reader only moves
    them around, and the two numeric helpers it calls ([np.deg2rad] and
    [_sphere_to_cartesian]) are parameters of the development. *)

From Stdlib Require Import String Ascii List Bool Arith Lia.
Import ListNotations.
Open Scope list_scope.
Open Scope string_scope.

Set Implicit Arguments.

(** ** Python string methods used by the reader *)

Module PyStr.

Definition chars (s : string) : list ascii := list_ascii_of_string s.
Definition of_chars (l : list ascii) : string := string_of_list_ascii l.

(** [s.startswith(p)] *)
Fixpoint startswith (p s : string) : bool :=
  match p, s with
  | EmptyString, _ => true
  | String a p', String b s' => Ascii.eqb a b && startswith p' s'
  | String _ _, EmptyString => false
  end.

(** [s.endswith(p)] *)
Definition endswith (p s : string) : bool :=
  let n := String.length s in
  let k := String.length p in
  (k <=? n)%nat && String.eqb (substring (n - k) k s) p.

(** [needle in hay] *)
Fixpoint contains (needle hay : string) : bool :=
  startswith needle hay ||
  match hay with
  | EmptyString => false
  | String _ hay' => contains needle hay'
  end.

(** [''.join(l)] *)
Definition join (l : list string) : string := String.concat "" l.

Fixpoint lstrip_chars (c : ascii) (l : list ascii) : list ascii :=
  match l with
  | x :: l' => if Ascii.eqb x c then lstrip_chars c l' else l
  | [] => []
  end.

(** [s.strip(c)] for a one-character argument: drops every leading and
    every trailing occurrence of [c]. *)
Definition strip (c : ascii) (s : string) : string :=
  of_chars (rev (lstrip_chars c (rev (lstrip_chars c (chars s))))).

(** Iterating over an open text file: the lines of the content, each
    keeping its final newline; only the last one may lack it. *)
Fixpoint lines_aux (cur : list ascii) (l : list ascii) : list string :=
  match l with
  | [] => match cur with [] => [] | _ => [of_chars (rev cur)] end
  | c :: l' =>
      if Ascii.eqb c "010"
      then of_chars (rev (c :: cur)) :: lines_aux [] l'
      else lines_aux (c :: cur) l'
  end.

Definition readlines (content : string) : list string :=
  lines_aux [] (chars content).

(** A file opened in universal-newline mode: a carriage return followed
    by a line feed, and a carriage return alone, are read as one line
    feed. *)
Fixpoint universal_newlines (l : list ascii) : list ascii :=
  match l with
  | [] => []
  | c :: l' =>
      if Ascii.eqb c "013" then
        match l' with
        | c' :: _ =>
            if Ascii.eqb c' "010" then universal_newlines l'
            else "010"%char :: universal_newlines l'
        | [] => ["010"%char]
        end
      else c :: universal_newlines l'
  end.

(** The lines of a file opened in universal-newline mode. *)
Definition readlines_universal (content : string) : list string :=
  lines_aux [] (universal_newlines (chars content)).

(** The characters [str.split()] without argument treats as blanks. *)
Definition is_space (c : ascii) : bool :=
  let n := nat_of_ascii c in
  (n =? 32)%nat || ((9 <=? n)%nat && (n <=? 13)%nat).

Fixpoint split_aux (cur : list ascii) (l : list ascii) : list string :=
  match l with
  | [] => match cur with [] => [] | _ => [of_chars (rev cur)] end
  | c :: l' =>
      if is_space c
      then match cur with
           | [] => split_aux [] l'
           | _ => of_chars (rev cur) :: split_aux [] l'
           end
      else split_aux (c :: cur) l'
  end.

(** [s.split()] *)
Definition split (s : string) : list string := split_aux [] (chars s).

Fixpoint before_char (c : ascii) (s : string) : string :=
  match s with
  | EmptyString => EmptyString
  | String x s' => if Ascii.eqb x c then EmptyString else String x (before_char c s')
  end.

(** [e in l] for a list of strings *)
Definition mem (e : string) (l : list string) : bool :=
  existsb (String.eqb e) l.

End PyStr.

(** ** posixpath *)

Module PosixPath.

(** [op.join(a, b)] *)
Definition join (a b : string) : string :=
  if PyStr.startswith "/" b then b
  else if String.eqb a "" || PyStr.endswith "/" a then a ++ b
  else a ++ "/" ++ b.

Fixpoint until_slash (l : list ascii) : list ascii :=
  match l with
  | [] => []
  | c :: l' => if Ascii.eqb c "/" then [] else c :: until_slash l'
  end.

(** [op.split(p)[-1]]: the slice [p[i:]] with [i = p.rfind('/') + 1],
    that is, whatever follows the last slash. *)
Definition split_tail (p : string) : string :=
  PyStr.of_chars (rev (until_slash (rev (PyStr.chars p)))).

End PosixPath.

(** ** Exceptions, and the monad of the reader *)

(** The Python exceptions the reader can end with.  [ValueError] carries
    its message. *)
Inductive exn : Type :=
| ValueError (msg : string)
| IOError (fname : string)
| IndexError
| StopIteration.

Inductive result (A : Type) : Type :=
| Ok (a : A)
| Raise (e : exn).
Arguments Ok {A} a.
Arguments Raise {A} e.

Definition result_map {A B} (f : A -> B) (r : result A) : result B :=
  match r with
  | Ok a => Ok (f a)
  | Raise e => Raise e
  end.

(** The file system the reader runs against: the content of every
    readable file, by name. *)
Definition filesystem := string -> option string.

(** A computation reads the file system and yields a result or an
    exception, together with the names of the files it tried to open, in
    order. *)
Definition IO (A : Type) : Type := filesystem -> result A * list string.

Definition ret {A} (a : A) : IO A := fun _ => (Ok a, []).
Definition raise {A} (e : exn) : IO A := fun _ => (Raise e, []).
Definition lift {A} (r : result A) : IO A := fun _ => (r, []).

Definition bind {A B} (m : IO A) (k : A -> IO B) : IO B :=
  fun fs =>
    match m fs with
    | (Ok a, log) => let '(r, log') := k a fs in (r, (log ++ log')%list)
    | (Raise e, log) => (Raise e, log)
    end.

Notation "x <- m ;; k" := (bind m (fun x => k))
  (at level 61, m at next level, right associativity).
Notation "' pat <- m ;; k" := (bind m (fun x => match x with pat => k end))
  (at level 61, pat pattern, m at next level, right associativity).

(** [open(fname)] followed by reading the whole file. *)
Definition open_file (fname : string) : IO string :=
  fun fs =>
    match fs fname with
    | Some content => (Ok content, [fname])
    | None => (Raise (IOError fname), [fname])
    end.

(** What opening [fname] and handing its content to a parser amounts
    to. *)
Definition run_parser {A} (parse : string -> result A) (fname : string)
  : IO A :=
  fun fs =>
    match fs fname with
    | Some content => (parse content, [fname])
    | None => (Raise (IOError fname), [fname])
    end.

Definition rbind {A B} (r : result A) (k : A -> result B) : result B :=
  match r with
  | Ok a => k a
  | Raise e => Raise e
  end.

Fixpoint rmap {A B} (f : A -> result B) (l : list A) : result (list B) :=
  match l with
  | [] => Ok []
  | a :: l' =>
      rbind (f a) (fun b => rbind (rmap f l') (fun bs => Ok (b :: bs)))
  end.

(** ** The reader *)

Section Reader.

(** A double precision number ([f8]). *)
Variable F : Type.
(** Python's [float(s)] on a field of a text row. *)
Variable float_of_string : string -> option F.
(** The literal [1.0]. *)
Variable one : F.
(** [np.deg2rad] on one number. *)
Variable deg2rad : F -> F.
(** Modelled from the spec: [_sphere_to_cartesian] of [mne/utils.py],
    which is not among the sources; the spec only says it converts
    spherical coordinates (two angles and a radius) into Cartesian
    [x, y, z].  It is taken on one sensor; on arrays it acts on every
    entry. *)
Variable sphere_to_cartesian : F -> F -> F -> F * F * F.
(** [op.dirname(__file__)], the folder of the bundled layouts. *)
Variable module_dir : string.

(** *** The part of numpy the reader relies on *)

(** A float array of dimension 0, 1 or 2. *)
Inductive ndarray : Type :=
| Arr0 (x : F)
| Arr1 (v : list F)
| Arr2 (rows : list (list F)).

(** [len(a)]; a 0-d array has none. *)
Definition ndarray_len (a : ndarray) : option nat :=
  match a with
  | Arr0 _ => None
  | Arr1 v => Some (length v)
  | Arr2 rows => Some (length rows)
  end.

(** [a[sel]] for a tuple [sel] of non-negative integers.  numpy reads a
    tuple as one index per axis: [a[(i, j)]] is [a[i, j]]. *)
Definition getitem_tuple (a : ndarray) (sel : list nat) : result ndarray :=
  match sel, a with
  | [], _ => Ok a
  | [i], Arr1 v =>
      match nth_error v i with
      | Some x => Ok (Arr0 x)
      | None => Raise IndexError
      end
  | [i], Arr2 rows =>
      match nth_error rows i with
      | Some r => Ok (Arr1 r)
      | None => Raise IndexError
      end
  | [i; j], Arr2 rows =>
      match nth_error rows i with
      | Some r =>
          match nth_error r j with
          | Some x => Ok (Arr0 x)
          | None => Raise IndexError
          end
      | None => Raise IndexError
      end
  | _, _ => Raise IndexError
  end.

(** The rows [np.loadtxt] sees: the first [skiprows] lines are consumed
    unread (there must be that many), what follows a [#] is a comment,
    and a line without any field is skipped. *)
Fixpoint skip_lines (n : nat) (lines : list string) : result (list string) :=
  match n, lines with
  | O, _ => Ok lines
  | S n', _ :: lines' => skip_lines n' lines'
  | S _, [] => Raise StopIteration
  end.

Definition split_line (line : string) : list string :=
  PyStr.split (PyStr.before_char "#" line).

Definition rows_of_lines (skiprows : nat) (lines : list string)
  : result (list (list string)) :=
  rbind (skip_lines skiprows lines) (fun lines =>
  Ok (filter (fun vals => negb (length vals =? 0)%nat) (map split_line lines))).

(** [np.loadtxt(fname, ...)]: the file is opened by name, in
    universal-newline mode. *)
Definition loadtxt_rows (skiprows : nat) (content : string) : result (list (list string)) :=
  rows_of_lines skiprows (PyStr.readlines_universal content).

(** [np.loadtxt(BytesIO(text))]: the lines of an in-memory file end at
    line feeds only. *)
Definition loadtxt_rows_stream (content : string) : result (list (list string)) :=
  rows_of_lines 0 (PyStr.readlines content).

(** Conversion of one field to [f8]. *)
Definition conv_f8 (tok : string) : result F :=
  match float_of_string tok with
  | Some x => Ok x
  | None => Raise (ValueError ("could not convert string to float: " ++ tok))
  end.

(** Conversion of one field to [S4]: a string field of four bytes keeps
    the first four bytes of what it is given. *)
Definition conv_S4 (tok : string) : string := substring 0 4 tok.

Definition wrong_columns {A} : result A :=
  Raise (ValueError "Wrong number of columns").

(** [np.loadtxt] with a structured dtype: every row is converted field
    by field; a row with another number of fields than the dtype is
    rejected. *)
Definition loadtxt_struct {R} (conv : list string -> result R)
    (skiprows : nat) (content : string) : result (list R) :=
  rbind (loadtxt_rows skiprows content) (rmap conv).

(** [np.loadtxt] with the default dtype (float): the first row fixes
    the number of columns, and the array is squeezed before it is
    returned, so that a single row comes back as a 1-d array and a
    single column as well. *)
Definition conv_floats (ncols : nat) (vals : list string) : result (list F) :=
  if (length vals =? ncols)%nat then rmap conv_f8 vals else wrong_columns.

Definition squeeze (rows : list (list F)) : ndarray :=
  match rows with
  | [] => Arr1 []
  | [[x]] => Arr0 x
  | [r] => Arr1 r
  | _ =>
      if forallb (fun r => (length r =? 1)%nat) rows
      then Arr1 (concat rows)
      else Arr2 rows
  end.

Definition loadtxt_float (content : string) : result ndarray :=
  rbind (loadtxt_rows_stream content) (fun rows =>
  let ncols := match rows with [] => O | vals :: _ => length vals end in
  rbind (rmap (conv_floats ncols) rows) (fun X => Ok (squeeze X))).

(** [np.c_[x, y, z]]: the three columns side by side, one row per
    entry. *)
Fixpoint c_ (x y z : list F) : result ndarray :=
  match x, y, z with
  | [], [], [] => Ok (Arr2 [])
  | a :: x', b :: y', c :: z' =>
      rbind (c_ x' y' z') (fun rest =>
        match rest with
        | Arr2 rows => Ok (Arr2 ([a; b; c] :: rows))
        | _ => Raise (ValueError "all the input array dimensions must match")
        end)
  | _, _, _ => Raise (ValueError "all the input array dimensions must match")
  end.

(** The value of the field [names] of a montage: the label column of a
    record array (1-d, or 0-d when the file had a single row), the
    Python list built by the [.elc] branch, or the tuple built by the
    selection. *)
Inductive names_val : Type :=
| NArray (labels : list string)
| NArray0 (label : string)
| NList (labels : list string)
| NTuple (labels : list string).

(** [len(names)]; a 0-d array has none. *)
Definition names_len (n : names_val) : option nat :=
  match n with
  | NArray l | NList l | NTuple l => Some (length l)
  | NArray0 _ => None
  end.

(** The labels held, in order. *)
Definition labels_of (n : names_val) : list string :=
  match n with
  | NArray l | NList l | NTuple l => l
  | NArray0 s => [s]
  end.

(** The label column of the record array [np.loadtxt] returns; the
    squeeze turns a single record into a 0-d array. *)
Definition label_field (labels : list string) : names_val :=
  match labels with
  | [s] => NArray0 s
  | _ => NArray labels
  end.

(** *** [Montage] *)

Record Montage : Type := {
  pos : ndarray;
  names : names_val;
  kind : string
}.

(** [self.names[:3]]: the first three names; a 0-d array cannot be
    sliced. *)
Definition names_slice3 (n : names_val) : result (list string) :=
  match n with
  | NArray l | NList l | NTuple l => Ok (firstn 3 l)
  | NArray0 _ => Raise IndexError
  end.

(** [Montage.__repr__] *)
Definition Montage_repr (m : Montage) : result string :=
  rbind (names_slice3 (names m)) (fun first =>
  Ok ("<Montage | " ++ kind m ++ " - Channels: "
        ++ String.concat ", " first ++ " ...>")).

(** *** The four formats *)

(** [.sfp], dtype ['S4, f8, f8, f8']. *)
Definition row_sfp (vals : list string) : result (string * (F * F * F)) :=
  match vals with
  | [l; a; b; c] =>
      rbind (conv_f8 a) (fun f1 =>
      rbind (conv_f8 b) (fun f2 =>
      rbind (conv_f8 c) (fun f3 => Ok (conv_S4 l, (f1, f2, f3)))))
  | _ => wrong_columns
  end.

Definition parse_sfp (content : string) : result (ndarray * names_val) :=
  rbind (loadtxt_struct row_sfp 0 content) (fun data =>
  rbind (c_ (map (fun r => fst (fst (snd r))) data)
            (map (fun r => snd (fst (snd r))) data)
            (map (fun r => snd (snd r)) data)) (fun pos =>
  Ok (pos, label_field (map fst data)))).

(** [.elc]: the three loops over the open file. *)
Definition NL : string := String "010" EmptyString.

Fixpoint skip_past (marker : string) (lines : list string) : list string :=
  match lines with
  | [] => []
  | line :: rest =>
      if PyStr.contains marker line then rest else skip_past marker rest
  end.

Fixpoint collect_until (marker : string) (lines : list string)
  : list string * list string :=
  match lines with
  | [] => ([], [])
  | line :: rest =>
      if PyStr.contains marker line then ([], rest)
      else let '(acc, rest') := collect_until marker rest in (line :: acc, rest')
  end.

(** [not line or not set(line) - set([' '])] *)
Definition only_spaces (line : string) : bool :=
  forallb (fun c => Ascii.eqb c " ") (PyStr.chars line).

Fixpoint collect_labels (lines : list string) : list string :=
  match lines with
  | [] => []
  | line :: rest =>
      if only_spaces line then []
      else PyStr.strip "010" (PyStr.strip " " line) :: collect_labels rest
  end.

Definition parse_elc (content : string) : result (ndarray * names_val) :=
  let fid := PyStr.readlines content in
  let fid := skip_past ("Positions" ++ NL) fid in
  let '(pos, fid) := collect_until ("Labels" ++ NL) fid in
  let names_ := collect_labels fid in
  rbind (loadtxt_float (PyStr.join pos)) (fun pos =>
  Ok (pos, NList names_)).

(** [.txt], dtype ['S4, f8, f8'], one row skipped. *)
Definition row_txt (vals : list string) : result (string * (F * F)) :=
  match vals with
  | [l; a; b] =>
      rbind (conv_f8 a) (fun f1 =>
      rbind (conv_f8 b) (fun f2 => Ok (conv_S4 l, (f1, f2))))
  | _ => wrong_columns
  end.

(** [_sphere_to_cartesian] on arrays. *)
Fixpoint _sphere_to_cartesian (theta phi : list F) (r : F)
  : list F * list F * list F :=
  match theta, phi with
  | t :: theta', p :: phi' =>
      let '(x, y, z) := sphere_to_cartesian t p r in
      let '(xs, ys, zs) := _sphere_to_cartesian theta' phi' r in
      (x :: xs, y :: ys, z :: zs)
  | _, _ => ([], [], [])
  end.

Definition parse_txt (content : string) : result (ndarray * names_val) :=
  rbind (loadtxt_struct row_txt 1 content) (fun data =>
  let theta := map (fun r => fst (snd r)) data in
  let phi := map (fun r => snd (snd r)) data in
  let '(x, y, z) := _sphere_to_cartesian (map deg2rad theta) (map deg2rad theta) one in
  rbind (c_ x y z) (fun pos =>
  Ok (pos, label_field (map fst data)))).

(** The position of one [.txt] sensor in the words of the spec: theta,
    in radians, is supplied for both angles of the conversion, with
    radius one; phi does not occur. *)
Definition theta_only_position (theta : F) : list F :=
  let '(x, y, z) := sphere_to_cartesian (deg2rad theta) (deg2rad theta) one in
  [x; y; z].

(** [.csd], eight named fields, two rows skipped. *)
Record csd_row : Type := {
  label : string;
  theta : F; phi : F; radius : F;
  x : F; y : F; z : F;
  off_sph : F
}.

Definition row_csd (vals : list string) : result csd_row :=
  match vals with
  | [l; a; b; c; d; e; f; g] =>
      rbind (conv_f8 a) (fun a =>
      rbind (conv_f8 b) (fun b =>
      rbind (conv_f8 c) (fun c =>
      rbind (conv_f8 d) (fun d =>
      rbind (conv_f8 e) (fun e =>
      rbind (conv_f8 f) (fun f =>
      rbind (conv_f8 g) (fun g =>
      Ok (Build_csd_row (conv_S4 l) a b c d e f g))))))))
  | _ => wrong_columns
  end.

Definition parse_csd (content : string) : result (ndarray * names_val) :=
  rbind (loadtxt_struct row_csd 2 content) (fun table =>
  rbind (c_ (map x table) (map y table) (map z table)) (fun pos =>
  Ok (pos, label_field (map label table)))).

(** *** [read_montage] *)

Definition enumerate {A} (l : list A) : list (nat * A) :=
  combine (seq 0 (length l)) l.

(** The list of pairs transposed by [zip] and unpacked into the two
    names [sel, names_]: the two tuples, or the [ValueError] of
    unpacking nothing. *)
Definition unzip_pairs (pairs : list (nat * string))
  : result (list nat * list string) :=
  match pairs with
  | [] => Raise (ValueError "need more than 0 values to unpack")
  | _ => Ok (map fst pairs, map snd pairs)
  end.

(** The comprehension [(i, e) for i, e in enumerate(names) if e in
    names], transposed and unpacked. *)
Definition select (names : list string) : result (list nat * list string) :=
  unzip_pairs (filter (fun ie => PyStr.mem (snd ie) names) (enumerate names)).

Definition unsupported (kind : string) : exn :=
  ValueError ("Currently " ++ kind ++ " is not supported.").

(** The chain of [if kind.endswith(...)]: file name, then parser. *)
Definition load (kind path : string) : IO (ndarray * names_val) :=
  if PyStr.endswith ".sfp" kind then
    let fname := PosixPath.join path kind in
    content <- open_file fname ;; lift (parse_sfp content)
  else if PyStr.endswith ".elc" kind then
    let fname := PosixPath.join path kind in
    content <- open_file fname ;; lift (parse_elc content)
  else if PyStr.endswith ".txt" kind then
    let fname := PosixPath.join path kind in
    content <- open_file fname ;; lift (parse_txt content)
  else if PyStr.endswith ".csd" kind then
    let fname := PosixPath.join path kind in
    content <- open_file fname ;; lift (parse_csd content)
  else raise (unsupported kind).

(** [if path is None: path = op.dirname(__file__)] *)
Definition default_path (path : option string) : string :=
  match path with
  | None => module_dir
  | Some p => p
  end.

Definition read_montage (kind : string) (names : option (list string))
    (path : option string) (scale : bool) : IO Montage :=
  let path := default_path path in
  ' (pos, names_) <- load kind path ;;
  ' (pos, names_) <-
      match names with
      | Some names =>
          ' (sel, names_) <- lift (select names) ;;
          pos <- lift (getitem_tuple pos sel) ;;
          ret (pos, NTuple names_)
      | None => ret (pos, names_)
      end ;;
  let kind := PosixPath.split_tail kind in
  ret {| pos := pos; names := names_; kind := kind |}.

End Reader.

(** One of the four [kind.endswith(...)] tests succeeds. *)
Definition supported (kind : string) : bool :=
  PyStr.endswith ".sfp" kind || PyStr.endswith ".elc" kind
  || PyStr.endswith ".txt" kind || PyStr.endswith ".csd" kind.

(** The text holds no newline: it can be the body of one line. *)
Definition no_newline (s : string) : bool :=
  forallb (fun c => negb (Ascii.eqb c "010")) (PyStr.chars s).

(** The text holds neither a line feed nor a carriage return: it is the
    body of one line also in universal-newline mode. *)
Definition no_linebreak (s : string) : bool :=
  forallb (fun c => negb (Ascii.eqb c "010") && negb (Ascii.eqb c "013"))
          (PyStr.chars s).

(** A text that starts with the full lines [hs], followed by [body]. *)
Fixpoint with_header (hs : list string) (body : string) : string :=
  match hs with
  | [] => body
  | h :: hs' => h ++ NL ++ with_header hs' body
  end.

(** No line holds the marker. *)
Definition marker_absent (marker : string) (lines : list string) : bool :=
  forallb (fun line => negb (PyStr.contains marker line)) lines.

(** The [skiprows] argument of the [np.loadtxt] call of a record format:
    none for [.sfp], one for [.txt], two for [.csd]. *)
Definition skiprows_of (kind : string) : nat :=
  if PyStr.endswith ".sfp" kind then 0
  else if PyStr.endswith ".txt" kind then 1
  else 2.

Arguments Arr0 {F} x.
Arguments Arr1 {F} v.
Arguments Arr2 {F} rows.

(** ** A symbolic instance

    Numbers are kept as the text they were read from, and the numeric
    helpers build the text of their own call.  Running the reader on
    this instance shows which number ends up where. *)

Module Symbolic.

Definition F : Type := string.

Definition float_chars : list string :=
  ["0"; "1"; "2"; "3"; "4"; "5"; "6"; "7"; "8"; "9"; "."; "-"; "+"; "e"].

Definition float_of_string (s : string) : option F :=
  if negb (String.eqb s "")
     && forallb (fun c => PyStr.mem (String c "") float_chars) (PyStr.chars s)
  then Some s else None.

Definition one : F := "1.0".

Definition deg2rad (d : F) : F := "rad(" ++ d ++ ")".

Definition sphere_to_cartesian (t p r : F) : F * F * F :=
  ("x(" ++ t ++ "," ++ p ++ "," ++ r ++ ")",
   "y(" ++ t ++ "," ++ p ++ "," ++ r ++ ")",
   "z(" ++ t ++ "," ++ p ++ "," ++ r ++ ")").

Definition module_dir : string := "/mne/montages".

Definition read_montage :=
  read_montage float_of_string one deg2rad sphere_to_cartesian module_dir.

(** Three sensors A, B, C in each of the four formats. *)
Definition abc_sfp : string :=
  "A 1 2 3" ++ NL ++ "B 4 5 6" ++ NL ++ "C 7 8 9" ++ NL.

Definition abc_elc : string :=
  "NumberPositions= 3" ++ NL ++ "Positions" ++ NL ++
  "1 2 3" ++ NL ++ "4 5 6" ++ NL ++ "7 8 9" ++ NL ++
  "Labels" ++ NL ++ "A" ++ NL ++ "B" ++ NL ++ "C" ++ NL.

Definition abc_txt : string :=
  "Site Theta Phi" ++ NL ++ "A -92 -72" ++ NL ++ "B 92 72" ++ NL ++ "C 0 0" ++ NL.

Definition abc_csd : string :=
  "// labels" ++ NL ++ "// columns" ++ NL ++
  "A 10 20 1 1 2 3 0" ++ NL ++ "B 30 40 1 4 5 6 0" ++ NL ++ "C 50 60 1 7 8 9 0" ++ NL.

(** An [.elc] file whose label section holds an empty line and a line
    of blanks between two labels. *)
Definition gap_elc : string :=
  "Positions" ++ NL ++ "1 2 3" ++ NL ++ "4 5 6" ++ NL ++
  "Labels" ++ NL ++ "A" ++ NL ++ NL ++ "  " ++ NL ++ "B" ++ NL.

(** A [.txt] file and a [.csd] file with a label of seven bytes. *)
Definition long_txt : string :=
  "Site Theta Phi" ++ NL ++ "Fp1left -92 -72" ++ NL ++ "Fp2 92 72" ++ NL.

Definition long_csd : string :=
  "// labels" ++ NL ++ "// columns" ++ NL ++
  "Fp1left 10 20 1 1 2 3 0" ++ NL ++ "Fp2 30 40 1 4 5 6 0" ++ NL.

(** [abc_txt] with other values in the phi column. *)
Definition abc_txt_phi : string :=
  "Site Theta Phi" ++ NL ++ "A -92 18" ++ NL ++ "B 92 -18" ++ NL ++ "C 0 45" ++ NL.

Definition abc_positions : list (list F) :=
  [["1"; "2"; "3"]; ["4"; "5"; "6"]; ["7"; "8"; "9"]].

Definition disk : filesystem := fun fname =>
  if String.eqb fname "/mne/montages/abc.sfp" then Some abc_sfp
  else if String.eqb fname "/mne/montages/abc.elc" then Some abc_elc
  else if String.eqb fname "/mne/montages/abc.txt" then Some abc_txt
  else if String.eqb fname "/mne/montages/abc.csd" then Some abc_csd
  else if String.eqb fname "/mne/montages/gap.elc" then Some gap_elc
  else if String.eqb fname "/mne/montages/long.txt" then Some long_txt
  else if String.eqb fname "/mne/montages/long.csd" then Some long_csd
  else if String.eqb fname "/some/dir/abc.sfp" then Some abc_sfp
  else None.

(** The same disk with [abc_txt_phi] in place of [abc_txt]. *)
Definition disk_phi : filesystem := fun fname =>
  if String.eqb fname "/mne/montages/abc.txt" then Some abc_txt_phi
  else disk fname.

End Symbolic.

(** More files for the symbolic instance. *)
Module Fixtures.

Import Symbolic.

(** [abc_csd] with other values in the columns theta, phi, radius and
    off_sph. *)
Definition abc_csd_other : string :=
  "// labels" ++ NL ++ "// columns" ++ NL ++
  "A 11 21 2 1 2 3 5" ++ NL ++ "B 31 41 2 4 5 6 5" ++ NL ++ "C 51 61 2 7 8 9 5" ++ NL.

Definition abc_csd_table : list (csd_row F) :=
  [Build_csd_row "A" "10" "20" "1" "1" "2" "3" "0";
   Build_csd_row "B" "30" "40" "1" "4" "5" "6" "0";
   Build_csd_row "C" "50" "60" "1" "7" "8" "9" "0"].

Definition abc_csd_other_table : list (csd_row F) :=
  [Build_csd_row "A" "11" "21" "2" "1" "2" "3" "5";
   Build_csd_row "B" "31" "41" "2" "4" "5" "6" "5";
   Build_csd_row "C" "51" "61" "2" "7" "8" "9" "5"].

(** A [.txt] file whose phi is not a number in one row. *)
Definition bad_txt : string :=
  "Site Theta Phi" ++ NL ++ "A -92 -72" ++ NL ++ "B 92 north" ++ NL.

(** The data rows of [abc_txt], and the file under another header. *)
Definition abc_txt_body : string :=
  "A -92 -72" ++ NL ++ "B 92 72" ++ NL ++ "C 0 0" ++ NL.

(** [abc_elc] without the line before [Positions]. *)
Definition abc_elc_body : string :=
  "Positions" ++ NL ++
  "1 2 3" ++ NL ++ "4 5 6" ++ NL ++ "7 8 9" ++ NL ++
  "Labels" ++ NL ++ "A" ++ NL ++ "B" ++ NL ++ "C" ++ NL.

(** An [.elc] file without the [Positions] line, and one without the
    [Labels] line. *)
Definition no_positions_elc : string :=
  "1 2 3" ++ NL ++ "Labels" ++ NL ++ "A" ++ NL.

Definition no_labels_elc : string :=
  "Positions" ++ NL ++ "1 2 3" ++ NL ++ "4 5 6" ++ NL.

Definition disk2 : filesystem := fun fname =>
  if String.eqb fname "/mne/montages/abc.csd" then Some abc_csd_other
  else if String.eqb fname "/mne/montages/abc.txt"
    then Some (with_header ["label theta phi (degrees)"] abc_txt_body)
  else if String.eqb fname "/mne/montages/abc.elc" then Some abc_elc_body
  else if String.eqb fname "/mne/montages/bad.txt" then Some bad_txt
  else if String.eqb fname "/mne/montages/no_positions.elc" then Some no_positions_elc
  else if String.eqb fname "/mne/montages/no_labels.elc" then Some no_labels_elc
  else disk fname.

End Fixtures.

(** ** Properties *)

(** *** Sanity checks of the string and path helpers *)

Example split_tail_lout :
  PosixPath.split_tail "/some/dir/Vectorview-all.lout" = "Vectorview-all.lout".
Proof. reflexivity. Qed.

Example join_relative : PosixPath.join "/mne/montages" "abc.sfp" = "/mne/montages/abc.sfp".
Proof. reflexivity. Qed.

Example join_absolute : PosixPath.join "/mne/montages" "/some/dir/abc.sfp" = "/some/dir/abc.sfp".
Proof. reflexivity. Qed.

Example readlines_keeps_newlines :
  PyStr.readlines ("a b" ++ NL ++ NL ++ "c") = ["a b" ++ NL; NL; "c"].
Proof. reflexivity. Qed.

Example readlines_universal_carriage_return :
  PyStr.readlines_universal
    ("a" ++ String "013" "B 1 2" ++ String "013" NL ++ "C 3 4" ++ NL)
  = ["a" ++ NL; "B 1 2" ++ NL; "C 3 4" ++ NL].
Proof. reflexivity. Qed.

Example split_blanks :
  PyStr.split ("  Fp1 0.1" ++ String "009" "0.2 " ++ NL) = ["Fp1"; "0.1"; "0.2"].
Proof. reflexivity. Qed.

Example strip_space_then_newline :
  PyStr.strip "010" (PyStr.strip " " ("  Fp1 " ++ NL)) = "Fp1 ".
Proof. reflexivity. Qed.

Example sfp_row :
  row_sfp Symbolic.float_of_string ["Fp1"; "0.1"; "0.2"; "0.3"]
  = Ok ("Fp1", ("0.1", "0.2", "0.3")).
Proof. reflexivity. Qed.

Example read_abc_sfp :
  Symbolic.read_montage "abc.sfp" None None true Symbolic.disk
  = (Ok {| pos := Arr2 [["1"; "2"; "3"]; ["4"; "5"; "6"]; ["7"; "8"; "9"]];
           names := NArray ["A"; "B"; "C"];
           kind := "abc.sfp" |},
     ["/mne/montages/abc.sfp"]).
Proof. vm_compute. reflexivity. Qed.

Example read_abc_elc :
  Symbolic.read_montage "abc.elc" None None true Symbolic.disk
  = (Ok {| pos := Arr2 [["1"; "2"; "3"]; ["4"; "5"; "6"]; ["7"; "8"; "9"]];
           names := NList ["A"; "B"; "C"];
           kind := "abc.elc" |},
     ["/mne/montages/abc.elc"]).
Proof. vm_compute. reflexivity. Qed.

Example read_abc_csd :
  Symbolic.read_montage "abc.csd" None None true Symbolic.disk
  = (Ok {| pos := Arr2 [["1"; "2"; "3"]; ["4"; "5"; "6"]; ["7"; "8"; "9"]];
           names := NArray ["A"; "B"; "C"];
           kind := "abc.csd" |},
     ["/mne/montages/abc.csd"]).
Proof. vm_compute. reflexivity. Qed.

Example read_missing_file :
  Symbolic.read_montage "nowhere.sfp" None (Some "/tmp") true Symbolic.disk
  = (Raise (IOError "/tmp/nowhere.sfp"), ["/tmp/nowhere.sfp"]).
Proof. vm_compute. reflexivity. Qed.

(** *** Strings and paths *)

Lemma of_chars_app (a b : list ascii) :
  PyStr.of_chars (a ++ b)%list = PyStr.of_chars a ++ PyStr.of_chars b.
Proof.
  induction a as [|c a IH]; simpl; [reflexivity|].
  now rewrite IH.
Qed.

Lemma of_chars_chars (s : string) : PyStr.of_chars (PyStr.chars s) = s.
Proof. apply string_of_list_ascii_of_string. Qed.

Lemma chars_of_chars (l : list ascii) : PyStr.chars (PyStr.of_chars l) = l.
Proof. apply list_ascii_of_string_of_list_ascii. Qed.

Lemma startswith_app (p s : string) : PyStr.startswith p (p ++ s) = true.
Proof.
  induction p as [|c p IH]; simpl; [reflexivity|].
  now rewrite Ascii.eqb_refl, IH.
Qed.

Lemma contains_unfold (k s : string) :
  PyStr.contains k s =
  PyStr.startswith k s ||
  match s with EmptyString => false | String _ s' => PyStr.contains k s' end.
Proof. destruct s; reflexivity. Qed.

Lemma contains_app (a k b : string) : PyStr.contains k (a ++ k ++ b) = true.
Proof.
  induction a as [|c a IH].
  - change ("" ++ k ++ b) with (k ++ b).
    rewrite contains_unfold, startswith_app. reflexivity.
  - change (String c a ++ k ++ b) with (String c (a ++ k ++ b)).
    rewrite contains_unfold, IH. apply orb_true_r.
Qed.

Lemma contains_slash_chars (s : string) :
  PyStr.contains "/" s = existsb (fun c => Ascii.eqb c "/") (PyStr.chars s).
Proof.
  induction s as [|c s IH]; simpl; [reflexivity|].
  rewrite IH. rewrite (Ascii.eqb_sym c). now rewrite andb_true_r.
Qed.

(** [until_slash] cuts a list just before its first slash. *)
Lemma until_slash_spec (l : list ascii) :
  existsb (fun c => Ascii.eqb c "/") (PosixPath.until_slash l) = false /\
  exists rest, l = (PosixPath.until_slash l ++ rest)%list /\
               (rest = [] \/ exists rest', rest = "/"%char :: rest').
Proof.
  induction l as [|c l [IHno [rest [IHeq IHrest]]]]; simpl.
  - split; [reflexivity|]. exists []. auto.
  - destruct (Ascii.eqb c "/") eqn:E; simpl.
    + split; [reflexivity|]. apply Ascii.eqb_eq in E. subst c.
      exists ("/"%char :: l). split; [reflexivity|]. right. now exists l.
    + rewrite E. split; [exact IHno|].
      exists rest. split; [now rewrite <- IHeq | exact IHrest].
Qed.

Lemma existsb_rev {A} (f : A -> bool) (l : list A) :
  existsb f (rev l) = existsb f l.
Proof.
  induction l as [|a l IH]; simpl; [reflexivity|].
  rewrite existsb_app, IH. simpl. rewrite orb_false_r. apply orb_comm.
Qed.

(** What [op.split(p)[-1]] is: [p] is a directory part, empty or ending
    with a slash, followed by the tail, and the tail has no slash. *)
Lemma split_tail_spec (p : string) :
  PyStr.contains "/" (PosixPath.split_tail p) = false /\
  exists dir, p = dir ++ PosixPath.split_tail p /\
              (dir = "" \/ exists d, dir = d ++ "/").
Proof.
  unfold PosixPath.split_tail.
  destruct (until_slash_spec (rev (PyStr.chars p))) as [Hno [rest [Heq Hrest]]].
  split.
  - now rewrite contains_slash_chars, chars_of_chars, existsb_rev.
  - exists (PyStr.of_chars (rev rest)). split.
    + rewrite <- of_chars_app, <- rev_app_distr, <- Heq, rev_involutive.
      symmetry. apply of_chars_chars.
    + destruct Hrest as [-> | [rest' ->]]; [now left|].
      right. exists (PyStr.of_chars (rev rest')).
      simpl. now rewrite of_chars_app.
Qed.

(** *** The monad *)

Lemma bind_ok {A B} (m : IO A) (k : A -> IO B) fs b log :
  bind m k fs = (Ok b, log) ->
  exists a log1 log2,
    m fs = (Ok a, log1) /\ k a fs = (Ok b, log2) /\ log = (log1 ++ log2)%list.
Proof.
  unfold bind. destruct (m fs) as [[a|e] log1]; [|discriminate].
  destruct (k a fs) as [r log2] eqn:Hk. intros H. inversion H; subst.
  now exists a, log1, log2.
Qed.

Lemma lift_ok {A} (r : result A) fs a log :
  lift r fs = (Ok a, log) -> r = Ok a /\ log = [].
Proof. unfold lift. intros H. now inversion H. Qed.

Lemma ret_ok {A} (x : A) fs a log :
  ret x fs = (Ok a, log) -> a = x /\ log = [].
Proof. unfold ret. intros H. now inversion H. Qed.

Lemma rbind_ok {A B} (r : result A) (k : A -> result B) b :
  rbind r k = Ok b -> exists a, r = Ok a /\ k a = Ok b.
Proof. destruct r as [a|e]; simpl; [|discriminate]. intros H. now exists a. Qed.

Lemma rmap_ok_map {A B C} (f : A -> result B) (h : B -> C) (g : A -> C)
    (l : list A) (bs : list B) :
  (forall a b, f a = Ok b -> h b = g a) ->
  rmap f l = Ok bs -> map h bs = map g l.
Proof.
  intros Hfg. revert bs.
  induction l as [|a l IH]; simpl; intros bs H.
  - now inversion H.
  - apply rbind_ok in H. destruct H as [b [Hb H]].
    apply rbind_ok in H. destruct H as [bs' [Hbs H]].
    inversion H; subst. simpl. f_equal; [now apply Hfg | now apply IH].
Qed.

(** *** The selection *)

Lemma mem_In (e : string) (l : list string) : In e l -> PyStr.mem e l = true.
Proof.
  intros H. unfold PyStr.mem. apply existsb_exists.
  exists e. split; [exact H | apply String.eqb_refl].
Qed.

Lemma filter_enumerate_members (names l : list string) (start : nat) :
  (forall e, In e l -> PyStr.mem e names = true) ->
  filter (fun ie : nat * string => PyStr.mem (snd ie) names)
         (combine (seq start (length l)) l)
  = combine (seq start (length l)) l.
Proof.
  revert start. induction l as [|a l IH]; intros start Hin; simpl; [reflexivity|].
  rewrite (Hin a (or_introl eq_refl)). f_equal.
  apply IH. intros e He. apply Hin. now right.
Qed.

Lemma map_fst_enumerate {A} (l : list A) (start : nat) :
  map fst (combine (seq start (length l)) l) = seq start (length l).
Proof.
  revert start. induction l as [|a l IH]; intros start; simpl; [reflexivity|].
  now rewrite IH.
Qed.

Lemma map_snd_enumerate {A} (l : list A) (start : nat) :
  map snd (combine (seq start (length l)) l) = l.
Proof.
  revert start. induction l as [|a l IH]; intros start; simpl; [reflexivity|].
  now rewrite IH.
Qed.

(** The comprehension keeps every pair: each requested name is found in
    the requested list. *)
Lemma select_all (names : list string) :
  names <> [] -> select names = Ok (seq 0 (length names), names).
Proof.
  intros Hne. unfold select, enumerate.
  rewrite filter_enumerate_members by (intros e He; now apply mem_In).
  destruct names as [|a l]; [congruence|].
  unfold unzip_pairs.
  change (combine (seq 0 (length (a :: l))) (a :: l))
    with ((0, a) :: combine (seq 1 (length l)) l).
  cbv beta iota. simpl map.
  now rewrite map_fst_enumerate, map_snd_enumerate.
Qed.

Lemma select_empty : select [] = Raise (ValueError "need more than 0 values to unpack").
Proof. reflexivity. Qed.

Section ReaderFacts.

Variable F : Type.
Variable float_of_string : string -> option F.
Variable one : F.
Variable deg2rad : F -> F.
Variable sphere_to_cartesian : F -> F -> F -> F * F * F.
Variable module_dir : string.

Let rm := read_montage float_of_string one deg2rad sphere_to_cartesian module_dir.
Let ld := load float_of_string one deg2rad sphere_to_cartesian.

(** A successful call went through a successful load, and its fields
    are built from what was loaded. *)
Lemma read_montage_ok k req path scale fs m log :
  rm k req path scale fs = (Ok m, log) ->
  exists p n,
    ld k (default_path module_dir path) fs = (Ok (p, n), log) /\
    kind m = PosixPath.split_tail k /\
    match req with
    | None => pos m = p /\ names m = n
    | Some l =>
        exists sel l',
          select l = Ok (sel, l') /\
          getitem_tuple p sel = Ok (pos m) /\
          names m = NTuple l'
    end.
Proof.
  unfold rm, read_montage. intros H.
  apply bind_ok in H. destruct H as [[p n] [log1 [log2 [Hload [H ->]]]]].
  apply bind_ok in H. destruct H as [[p' n'] [log3 [log4 [Hsel [H ->]]]]].
  apply ret_ok in H. destruct H as [-> ->].
  exists p, n. simpl.
  destruct req as [l|].
  - apply bind_ok in Hsel. destruct Hsel as [[sel l'] [la [lb [Hs [Hg ->]]]]].
    apply lift_ok in Hs. destruct Hs as [Hs ->].
    apply bind_ok in Hg. destruct Hg as [q [lc [ld' [Hg [Hr ->]]]]].
    apply lift_ok in Hg. destruct Hg as [Hg ->].
    apply ret_ok in Hr. destruct Hr as [Hr ->]. inversion Hr; subst.
    simpl. rewrite app_nil_r. split; [exact Hload|]. split; [reflexivity|].
    now exists sel, l'.
  - apply ret_ok in Hsel. destruct Hsel as [Hr ->]. inversion Hr; subst.
    rewrite !app_nil_r. auto.
Qed.

(** C8: the flag [scale] has no effect: with [scale=True] and with
    [scale=False] the call is the same computation, so it opens the
    same files, fails in the same cases and returns the same montage. *)
Theorem read_montage_scale_irrelevant k names path :
  rm k names path true = rm k names path false.
Proof. reflexivity. Qed.

(** C6: when [kind] ends with none of [.sfp], [.elc], [.txt], [.csd],
    the call raises the [ValueError] whose message is
    ["Currently <kind> is not supported."] (so it contains [kind]), and
    it does so without having opened any file; no montage is built. *)
Theorem read_montage_unsupported k names path scale fs :
  PyStr.endswith ".sfp" k = false ->
  PyStr.endswith ".elc" k = false ->
  PyStr.endswith ".txt" k = false ->
  PyStr.endswith ".csd" k = false ->
  rm k names path scale fs
    = (Raise (ValueError ("Currently " ++ k ++ " is not supported.")), [])
  /\ PyStr.contains k ("Currently " ++ k ++ " is not supported.") = true.
Proof.
  intros H1 H2 H3 H4. split.
  - unfold rm, read_montage, load. rewrite H1, H2, H3, H4. reflexivity.
  - apply contains_app.
Qed.

(** C9: on every successful call the field [kind] of the montage is
    what follows the last slash of the argument [kind]: the argument
    is a directory part (empty, or ending with a slash) followed by
    the stored [kind], which itself holds no slash. *)
Theorem read_montage_kind_basename k names path scale fs m log :
  rm k names path scale fs = (Ok m, log) ->
  kind m = PosixPath.split_tail k /\
  PyStr.contains "/" (kind m) = false /\
  exists dir, k = dir ++ kind m /\ (dir = "" \/ exists d, dir = d ++ "/").
Proof.
  intros H. apply read_montage_ok in H.
  destruct H as [p [n [_ [Hk _]]]]. rewrite Hk.
  split; [reflexivity|]. apply split_tail_spec.
Qed.

(** C3: for a non-empty [names], the membership test of the selection
    looks each requested name up in the requested list, so the
    selected indices are [0 .. len(names)-1] and the selected names are
    [names] itself; a montage that is returned carries exactly
    [names] as a tuple, whatever the file system holds. *)
Theorem read_montage_names_verbatim requested :
  requested <> [] ->
  select requested = Ok (seq 0 (length requested), requested) /\
  forall k path scale fs m log,
    rm k (Some requested) path scale fs = (Ok m, log) ->
    names m = NTuple requested.
Proof.
  intros Hne. split; [now apply select_all|].
  intros k path scale fs m log H. apply read_montage_ok in H.
  destruct H as [p [n [_ [_ [sel [l' [Hs [_ Hn]]]]]]]].
  rewrite select_all in Hs by exact Hne. inversion Hs; subst. exact Hn.
Qed.

(** *** Dispatch on the suffix *)

Lemma endswith_exclusive (p q k : string) :
  String.length p = String.length q -> p <> q ->
  PyStr.endswith p k = true -> PyStr.endswith q k = false.
Proof.
  unfold PyStr.endswith. intros Hlen Hne Hp. rewrite <- Hlen.
  apply andb_true_iff in Hp. destruct Hp as [_ Hp].
  apply String.eqb_eq in Hp. rewrite Hp.
  apply andb_false_iff. right. now apply String.eqb_neq.
Qed.

Lemma open_then_parse {A} (parse : string -> result A) fname fs :
  (content <- open_file fname ;; lift (parse content)) fs
  = run_parser parse fname fs.
Proof. unfold bind, open_file, lift, run_parser. now destruct (fs fname). Qed.

Lemma load_txt k path fs :
  PyStr.endswith ".txt" k = true ->
  ld k path fs
  = run_parser (parse_txt float_of_string one deg2rad sphere_to_cartesian)
      (PosixPath.join path k) fs.
Proof.
  intros H. unfold ld, load.
  rewrite (@endswith_exclusive ".txt" ".sfp" k eq_refl ltac:(discriminate) H).
  rewrite (@endswith_exclusive ".txt" ".elc" k eq_refl ltac:(discriminate) H).
  rewrite H. apply open_then_parse.
Qed.

Lemma load_csd k path fs :
  PyStr.endswith ".csd" k = true ->
  ld k path fs
  = run_parser (parse_csd float_of_string) (PosixPath.join path k) fs.
Proof.
  intros H. unfold ld, load.
  rewrite (@endswith_exclusive ".csd" ".sfp" k eq_refl ltac:(discriminate) H).
  rewrite (@endswith_exclusive ".csd" ".elc" k eq_refl ltac:(discriminate) H).
  rewrite (@endswith_exclusive ".csd" ".txt" k eq_refl ltac:(discriminate) H).
  rewrite H. apply open_then_parse.
Qed.

(** The call as a whole, once the load is known. *)
Lemma read_montage_after_load k names path scale fs r log :
  ld k (default_path module_dir path) fs = (r, log) ->
  fst (rm k names path scale fs)
  = rbind r (fun pn =>
      match names with
      | Some l =>
          rbind (select l) (fun sn =>
          rbind (getitem_tuple (fst pn) (fst sn)) (fun q =>
          Ok {| pos := q; names := NTuple (snd sn);
                kind := PosixPath.split_tail k |}))
      | None =>
          Ok {| pos := fst pn; names := snd pn;
                kind := PosixPath.split_tail k |}
      end).
Proof.
  intros Hld. unfold rm, read_montage, bind. fold ld. rewrite Hld.
  destruct r as [[p n]|e]; [|reflexivity]. simpl.
  destruct names as [l|]; [|reflexivity].
  unfold lift. destruct (select l) as [[sel l']|e]; [|reflexivity]. simpl.
  destruct (getitem_tuple p sel) as [q|e]; reflexivity.
Qed.

(** *** The [.txt] format *)

Lemma sphere_rows (th : list F) :
  (let '(x, y, z) :=
     _sphere_to_cartesian sphere_to_cartesian (map deg2rad th) (map deg2rad th) one in
   c_ x y z)
  = Ok (Arr2 (map (theta_only_position one deg2rad sphere_to_cartesian) th)).
Proof.
  induction th as [|t th IH]; simpl; [reflexivity|].
  unfold theta_only_position at 1.
  destruct (sphere_to_cartesian (deg2rad t) (deg2rad t) one) as [[x y] z].
  destruct (_sphere_to_cartesian sphere_to_cartesian
              (map deg2rad th) (map deg2rad th) one) as [[xs ys] zs].
  simpl. now rewrite IH.
Qed.

(** The table decides the result, and only its columns [f0] (labels)
    and [f1] (theta) are used. *)
Lemma parse_txt_table content data :
  loadtxt_struct (row_txt float_of_string) 1 content = Ok data ->
  parse_txt float_of_string one deg2rad sphere_to_cartesian content
  = Ok (Arr2 (map (theta_only_position one deg2rad sphere_to_cartesian)
                  (map (fun r => fst (snd r)) data)),
        label_field (map fst data)).
Proof.
  intros Hd. unfold parse_txt. rewrite Hd. simpl.
  assert (H := sphere_rows (map (fun r => fst (snd r)) data)).
  destruct (_sphere_to_cartesian sphere_to_cartesian _ _ one) as [[xs ys] zs].
  now rewrite H.
Qed.

(** C4: take a [.txt] file in two versions whose tables (the rows
    [label theta phi] as [np.loadtxt] returns them) have the same
    theta column; the phi columns, and the labels, may differ.  Then
    the two calls agree on the positions: each returns a montage,
    both with the same [pos], or each raises the same exception.
    Without a [names] argument each returns a montage, and row [i] of
    [pos] is computed from the theta of data row [i] alone. *)
Theorem read_montage_txt_phi_unused k req path scale fs1 fs2 c1 c2 d1 d2 :
  PyStr.endswith ".txt" k = true ->
  fs1 (PosixPath.join (default_path module_dir path) k) = Some c1 ->
  fs2 (PosixPath.join (default_path module_dir path) k) = Some c2 ->
  loadtxt_struct (row_txt float_of_string) 1 c1 = Ok d1 ->
  loadtxt_struct (row_txt float_of_string) 1 c2 = Ok d2 ->
  map (fun r => fst (snd r)) d1 = map (fun r => fst (snd r)) d2 ->
  result_map (@pos F) (fst (rm k req path scale fs1))
    = result_map (@pos F) (fst (rm k req path scale fs2))
  /\ (req = None ->
      exists m1 m2,
        fst (rm k req path scale fs1) = Ok m1 /\
        fst (rm k req path scale fs2) = Ok m2 /\
        pos m1 = pos m2 /\
        pos m1 = Arr2 (map (theta_only_position one deg2rad sphere_to_cartesian)
                           (map (fun r => fst (snd r)) d1))).
Proof.
  intros Hk Hf1 Hf2 H1 H2 Heq.
  assert (Hp1 := @parse_txt_table c1 d1 H1).
  assert (Hp2 := @parse_txt_table c2 d2 H2).
  rewrite <- Heq in Hp2.
  assert (L1 := @load_txt k (default_path module_dir path) fs1 Hk).
  assert (L2 := @load_txt k (default_path module_dir path) fs2 Hk).
  unfold run_parser in L1, L2. rewrite Hf1, Hp1 in L1. rewrite Hf2, Hp2 in L2.
  rewrite (@read_montage_after_load k req path scale fs1 _ _ L1).
  rewrite (@read_montage_after_load k req path scale fs2 _ _ L2).
  simpl. split.
  - destruct req as [l|]; [|reflexivity].
    destruct (select l) as [[sel l']|e]; [|reflexivity]. simpl.
    destruct (getitem_tuple _ sel); reflexivity.
  - intros ->. eexists. eexists. repeat split.
Qed.

(** *** Labels of the [.txt] and [.csd] formats *)

Lemma substring_length_le (n : nat) (s : string) :
  String.length (substring 0 n s) <= n.
Proof.
  revert s. induction n as [|n IH]; intros [|c s]; simpl; try lia.
  specialize (IH s). lia.
Qed.

Lemma labels_of_label_field (l : list string) : labels_of (label_field l) = l.
Proof. destruct l as [|a [|b l]]; reflexivity. Qed.

Lemma row_txt_label vals r :
  row_txt float_of_string vals = Ok r -> fst r = conv_S4 (hd "" vals).
Proof.
  destruct vals as [|l [|a [|b [|? ?]]]]; try discriminate. simpl.
  destruct (conv_f8 float_of_string a); [|discriminate].
  destruct (conv_f8 float_of_string b); [|discriminate].
  simpl. intros H. now inversion H.
Qed.

Lemma row_csd_label vals r :
  row_csd float_of_string vals = Ok r -> label r = conv_S4 (hd "" vals).
Proof.
  destruct vals as [|l [|a [|b [|c [|d [|e [|f [|g [|? ?]]]]]]]]];
    try discriminate. simpl.
  destruct (conv_f8 float_of_string a); [|discriminate].
  destruct (conv_f8 float_of_string b); [|discriminate].
  destruct (conv_f8 float_of_string c); [|discriminate].
  destruct (conv_f8 float_of_string d); [|discriminate].
  destruct (conv_f8 float_of_string e); [|discriminate].
  destruct (conv_f8 float_of_string f); [|discriminate].
  destruct (conv_f8 float_of_string g); [|discriminate].
  simpl. intros H. now inversion H.
Qed.

Lemma parse_txt_labels content p n :
  parse_txt float_of_string one deg2rad sphere_to_cartesian content = Ok (p, n) ->
  exists rows,
    loadtxt_rows 1 content = Ok rows /\
    labels_of n = map (fun vals => conv_S4 (hd "" vals)) rows.
Proof.
  unfold parse_txt, loadtxt_struct. intros H.
  apply rbind_ok in H. destruct H as [data [Hd H]].
  apply rbind_ok in Hd. destruct Hd as [rows [Hrows Hd]].
  exists rows. split; [exact Hrows|].
  destruct (_sphere_to_cartesian _ _ _ _) as [[xs ys] zs].
  apply rbind_ok in H. destruct H as [q [_ H]]. inversion H; subst.
  rewrite labels_of_label_field.
  apply (@rmap_ok_map _ _ _ _ _ _ rows data row_txt_label Hd).
Qed.

Lemma parse_csd_labels content p n :
  parse_csd float_of_string content = Ok (p, n) ->
  exists rows,
    loadtxt_rows 2 content = Ok rows /\
    labels_of n = map (fun vals => conv_S4 (hd "" vals)) rows.
Proof.
  unfold parse_csd, loadtxt_struct. intros H.
  apply rbind_ok in H. destruct H as [data [Hd H]].
  apply rbind_ok in Hd. destruct Hd as [rows [Hrows Hd]].
  exists rows. split; [exact Hrows|].
  apply rbind_ok in H. destruct H as [q [_ H]]. inversion H; subst.
  rewrite labels_of_label_field.
  apply (@rmap_ok_map _ _ _ _ _ _ rows data row_csd_label Hd).
Qed.

Lemma row_txt_any_label l l' rest r :
  row_txt float_of_string (l :: rest) = Ok r ->
  row_txt float_of_string (l' :: rest) = Ok (conv_S4 l', snd r).
Proof.
  destruct rest as [|a [|b [|? ?]]]; try discriminate. simpl.
  destruct (conv_f8 float_of_string a); [|discriminate].
  destruct (conv_f8 float_of_string b); [|discriminate].
  simpl. intros H. now inversion H.
Qed.

Lemma row_csd_any_label l l' rest r :
  row_csd float_of_string (l :: rest) = Ok r ->
  exists r', row_csd float_of_string (l' :: rest) = Ok r' /\
             label r' = conv_S4 l'.
Proof.
  destruct rest as [|a [|b [|c [|d [|e [|f [|g [|? ?]]]]]]]];
    try discriminate. simpl.
  destruct (conv_f8 float_of_string a); [|discriminate].
  destruct (conv_f8 float_of_string b); [|discriminate].
  destruct (conv_f8 float_of_string c); [|discriminate].
  destruct (conv_f8 float_of_string d); [|discriminate].
  destruct (conv_f8 float_of_string e); [|discriminate].
  destruct (conv_f8 float_of_string f); [|discriminate].
  destruct (conv_f8 float_of_string g); [|discriminate].
  simpl. intros _. eexists. split; reflexivity.
Qed.

Lemma run_parser_ok {A} (parse : string -> result A) fname fs a log :
  run_parser parse fname fs = (Ok a, log) ->
  exists content, fs fname = Some content /\ parse content = Ok a.
Proof.
  unfold run_parser. destruct (fs fname) as [content|]; [|discriminate].
  intros H. inversion H. now exists content.
Qed.

Lemma c_map {R} (f g h : R -> F) (d : list R) :
  c_ (map f d) (map g d) (map h d)
  = Ok (Arr2 (map (fun r => [f r; g r; h r]) d)).
Proof. induction d as [|r d IH]; simpl; [reflexivity | now rewrite IH]. Qed.

Lemma parse_csd_table content table :
  loadtxt_struct (row_csd float_of_string) 2 content = Ok table ->
  parse_csd float_of_string content
  = Ok (Arr2 (map (fun r => [x r; y r; z r]) table),
        label_field (map (@label F) table)).
Proof.
  intros Ht. unfold parse_csd. rewrite Ht. simpl. now rewrite c_map.
Qed.

Lemma rmap_total {A B} (f : A -> result B) (l : list A) :
  Forall (fun a => exists b, f a = Ok b) l -> exists bs, rmap f l = Ok bs.
Proof.
  induction l as [|a l IH]; intros H.
  - now exists [].
  - inversion H as [|? ? [b Hb] Hl]; subst.
    destruct (IH Hl) as [bs Hbs]. exists (b :: bs).
    simpl. now rewrite Hb, Hbs.
Qed.

Ltac all_fields_convert :=
  repeat match goal with
  | H : Forall _ (_ :: _) |- _ => inversion H; subst; clear H
  | H : Forall _ [] |- _ => clear H
  end;
  unfold conv_f8;
  repeat match goal with
  | H : float_of_string ?t <> None |- _ =>
      destruct (float_of_string t); [clear H | congruence]
  end;
  simpl; eexists; reflexivity.

(** A row of three fields whose second and third are numbers converts,
    whatever its label. *)
Lemma row_txt_total vals :
  length vals = 3 ->
  Forall (fun tok => float_of_string tok <> None) (tl vals) ->
  exists r, row_txt float_of_string vals = Ok r.
Proof.
  destruct vals as [|l [|a [|b [|? ?]]]]; try discriminate.
  intros _ H. simpl in H. unfold row_txt. all_fields_convert.
Qed.

(** A row of eight fields whose last seven are numbers converts,
    whatever its label. *)
Lemma row_csd_total vals :
  length vals = 8 ->
  Forall (fun tok => float_of_string tok <> None) (tl vals) ->
  exists r, row_csd float_of_string vals = Ok r.
Proof.
  destruct vals as [|l [|a [|b [|c [|d [|e [|f [|g [|? ?]]]]]]]]];
    try discriminate.
  intros _ H. simpl in H. unfold row_csd. all_fields_convert.
Qed.

Lemma loadtxt_struct_total {R} (conv : list string -> result R) n content rows :
  loadtxt_rows n content = Ok rows ->
  Forall (fun vals => exists r, conv vals = Ok r) rows ->
  exists data, loadtxt_struct conv n content = Ok data /\ rmap conv rows = Ok data.
Proof.
  intros Hrows Hall. destruct (@rmap_total _ _ conv rows Hall) as [data Hd].
  exists data. unfold loadtxt_struct. rewrite Hrows. simpl. auto.
Qed.

(** C10: in the [.txt] and [.csd] formats the label column is a
    four-byte string field.  Without a [names] argument, the labels of
    the montage returned are the first four bytes of the first field
    of each data row of the file, so none is longer than four bytes;
    a row that converts with one label converts with any other
    label in its place, which is stored cut to four bytes; and a file
    whose data rows have the fields of the format (three for [.txt],
    eight for [.csd]) with numbers after the label is read into a
    montage whatever the length of its labels, each stored cut to four
    bytes: the length of a label never makes the call fail. *)
Theorem txt_csd_labels_four_bytes :
  (forall k path scale fs m log,
      PyStr.endswith ".txt" k = true \/ PyStr.endswith ".csd" k = true ->
      rm k None path scale fs = (Ok m, log) ->
      exists content rows,
        fs (PosixPath.join (default_path module_dir path) k) = Some content /\
        loadtxt_rows (if PyStr.endswith ".txt" k then 1 else 2) content = Ok rows /\
        labels_of (names m) = map (fun vals => substring 0 4 (hd "" vals)) rows /\
        Forall (fun s => String.length s <= 4) (labels_of (names m)))
  /\ (forall l l' rest r,
        row_txt float_of_string (l :: rest) = Ok r ->
        row_txt float_of_string (l' :: rest) = Ok (substring 0 4 l', snd r))
  /\ (forall l l' rest r,
        row_csd float_of_string (l :: rest) = Ok r ->
        exists r', row_csd float_of_string (l' :: rest) = Ok r' /\
                   label r' = substring 0 4 l')
  /\ (forall k path scale fs content rows,
        PyStr.endswith ".txt" k = true \/ PyStr.endswith ".csd" k = true ->
        fs (PosixPath.join (default_path module_dir path) k) = Some content ->
        loadtxt_rows (if PyStr.endswith ".txt" k then 1 else 2) content = Ok rows ->
        Forall (fun vals =>
                  length vals = (if PyStr.endswith ".txt" k then 3 else 8) /\
                  Forall (fun tok => float_of_string tok <> None) (tl vals)) rows ->
        exists m,
          fst (rm k None path scale fs) = Ok m /\
          labels_of (names m) = map (fun vals => substring 0 4 (hd "" vals)) rows /\
          Forall (fun s => String.length s <= 4) (labels_of (names m))).
Proof.
  split; [|split; [exact row_txt_any_label | split; [exact row_csd_any_label|]]].
  - intros k path scale fs m log Hk H.
    apply read_montage_ok in H. destruct H as [p [n [Hld [_ [_ Hn]]]]].
    assert (Hlab : exists content rows,
               fs (PosixPath.join (default_path module_dir path) k) = Some content /\
               loadtxt_rows (if PyStr.endswith ".txt" k then 1 else 2) content = Ok rows /\
               labels_of n = map (fun vals => conv_S4 (hd "" vals)) rows).
    { destruct Hk as [Hk|Hk].
      - rewrite (@load_txt k _ fs Hk) in Hld.
        apply run_parser_ok in Hld. destruct Hld as [content [Hfs Hp]].
        apply parse_txt_labels in Hp. destruct Hp as [rows [Hrows Hl]].
        exists content, rows. now rewrite Hk.
      - rewrite (@load_csd k _ fs Hk) in Hld.
        apply run_parser_ok in Hld. destruct Hld as [content [Hfs Hp]].
        apply parse_csd_labels in Hp. destruct Hp as [rows [Hrows Hl]].
        exists content, rows.
        now rewrite (@endswith_exclusive ".csd" ".txt" k eq_refl ltac:(discriminate) Hk). }
    destruct Hlab as [content [rows [Hfs [Hrows Hl]]]].
    exists content, rows. rewrite Hn.
    split; [exact Hfs|]. split; [exact Hrows|]. split; [exact Hl|].
    rewrite Hl. apply Forall_map, Forall_forall. intros vals _.
    apply substring_length_le.
  - intros k path scale fs content rows Hk Hfs Hrows Hall.
    assert (Hlen : Forall (fun s => String.length s <= 4)
                     (map (fun vals => substring 0 4 (hd "" vals)) rows)).
    { apply Forall_map, Forall_forall. intros vals _. apply substring_length_le. }
    destruct Hk as [Hk|Hk].
    + rewrite Hk in Hrows, Hall.
      assert (Hconv : Forall (fun vals => exists r, row_txt float_of_string vals = Ok r) rows).
      { eapply Forall_impl; [|exact Hall]. intros vals [H3 Hnum].
        now apply row_txt_total. }
      destruct (@loadtxt_struct_total _ (row_txt float_of_string) 1 content rows
                  Hrows Hconv) as [data [Hd Hmap]].
      assert (Hp := @parse_txt_table content data Hd).
      assert (L := @load_txt k (default_path module_dir path) fs Hk).
      unfold run_parser in L. rewrite Hfs, Hp in L.
      rewrite (@read_montage_after_load k None path scale fs _ _ L).
      simpl. eexists. split; [reflexivity|]. simpl.
      rewrite labels_of_label_field.
      rewrite (@rmap_ok_map _ _ _ _ _ _ rows data row_txt_label Hmap).
      split; [reflexivity | exact Hlen].
    + rewrite (@endswith_exclusive ".csd" ".txt" k eq_refl ltac:(discriminate) Hk)
        in Hrows, Hall.
      assert (Hconv : Forall (fun vals => exists r, row_csd float_of_string vals = Ok r) rows).
      { eapply Forall_impl; [|exact Hall]. intros vals [H8 Hnum].
        now apply row_csd_total. }
      destruct (@loadtxt_struct_total _ (row_csd float_of_string) 2 content rows
                  Hrows Hconv) as [data [Hd Hmap]].
      assert (Hp := @parse_csd_table content data Hd).
      assert (L := @load_csd k (default_path module_dir path) fs Hk).
      unfold run_parser in L. rewrite Hfs, Hp in L.
      rewrite (@read_montage_after_load k None path scale fs _ _ L).
      simpl. eexists. split; [reflexivity|]. simpl.
      rewrite labels_of_label_field.
      rewrite (@rmap_ok_map _ _ _ _ _ _ rows data row_csd_label Hmap).
      split; [reflexivity | exact Hlen].
Qed.

(** *** Unfiltered calls on the record formats *)

Lemma c_rows (xs ys zs : list F) (p : ndarray F) :
  c_ xs ys zs = Ok p ->
  exists rows, p = Arr2 rows /\ length rows = length xs.
Proof.
  revert ys zs p. induction xs as [|a xs IH]; intros [|b ys] [|c zs] p;
    simpl; try discriminate.
  - intros H. inversion H. now exists [].
  - intros H. apply rbind_ok in H. destruct H as [q [Hq H]].
    destruct (IH _ _ _ Hq) as [rows [-> Hl]].
    inversion H. exists ([a; b; c] :: rows). simpl. now rewrite Hl.
Qed.

Lemma load_sfp k path fs :
  PyStr.endswith ".sfp" k = true ->
  ld k path fs
  = run_parser (parse_sfp float_of_string) (PosixPath.join path k) fs.
Proof. intros H. unfold ld, load. rewrite H. apply open_then_parse. Qed.

Lemma parse_sfp_parallel content p n :
  parse_sfp float_of_string content = Ok (p, n) ->
  exists rows, p = Arr2 rows /\ length rows = length (labels_of n).
Proof.
  unfold parse_sfp. intros H.
  apply rbind_ok in H. destruct H as [data [_ H]].
  apply rbind_ok in H. destruct H as [q [Hq H]]. inversion H; subst.
  destruct (c_rows _ _ _ Hq) as [rows [-> Hl]].
  exists rows. split; [reflexivity|].
  now rewrite labels_of_label_field, Hl, !length_map.
Qed.

Lemma parse_csd_parallel content p n :
  parse_csd float_of_string content = Ok (p, n) ->
  exists rows, p = Arr2 rows /\ length rows = length (labels_of n).
Proof.
  unfold parse_csd. intros H.
  apply rbind_ok in H. destruct H as [data [_ H]].
  apply rbind_ok in H. destruct H as [q [Hq H]]. inversion H; subst.
  destruct (c_rows _ _ _ Hq) as [rows [-> Hl]].
  exists rows. split; [reflexivity|].
  now rewrite labels_of_label_field, Hl, !length_map.
Qed.

Lemma parse_txt_parallel content p n :
  parse_txt float_of_string one deg2rad sphere_to_cartesian content = Ok (p, n) ->
  exists rows, p = Arr2 rows /\ length rows = length (labels_of n).
Proof.
  intros H. assert (H' := H). unfold parse_txt in H'.
  apply rbind_ok in H'. destruct H' as [data [Hd _]].
  rewrite (@parse_txt_table content data Hd) in H. inversion H; subst.
  eexists. split; [reflexivity|].
  now rewrite labels_of_label_field, !length_map.
Qed.

(** Without a [names] argument, a montage read from a [.sfp], [.txt] or
    [.csd] file has one row of [pos] per label. *)
Lemma read_montage_unfiltered_parallel k path scale fs m log :
  PyStr.endswith ".sfp" k = true \/ PyStr.endswith ".txt" k = true
    \/ PyStr.endswith ".csd" k = true ->
  rm k None path scale fs = (Ok m, log) ->
  exists rows, pos m = Arr2 rows /\ length rows = length (labels_of (names m)).
Proof.
  intros Hk H. apply read_montage_ok in H.
  destruct H as [p [n [Hld [_ [-> ->]]]]].
  destruct Hk as [Hk|[Hk|Hk]].
  - rewrite (@load_sfp k _ fs Hk) in Hld.
    apply run_parser_ok in Hld. destruct Hld as [content [_ Hp]].
    now apply parse_sfp_parallel in Hp.
  - rewrite (@load_txt k _ fs Hk) in Hld.
    apply run_parser_ok in Hld. destruct Hld as [content [_ Hp]].
    now apply parse_txt_parallel in Hp.
  - rewrite (@load_csd k _ fs Hk) in Hld.
    apply run_parser_ok in Hld. destruct Hld as [content [_ Hp]].
    now apply parse_csd_parallel in Hp.
Qed.

(** *** The [.elc] format *)

Lemma chars_app (a b : string) :
  PyStr.chars (a ++ b) = (PyStr.chars a ++ PyStr.chars b)%list.
Proof. induction a as [|c a IH]; simpl; [reflexivity | now rewrite IH]. Qed.

(** A line that still has its newline is never taken for the end of
    the labels: it is stored, stripped. *)
Lemma collect_labels_newline (line : string) (rest : list string) :
  collect_labels ((line ++ NL) :: rest)
  = PyStr.strip "010" (PyStr.strip " " (line ++ NL)) :: collect_labels rest.
Proof.
  simpl. unfold only_spaces. rewrite chars_app, forallb_app.
  simpl. now rewrite andb_false_r.
Qed.

(** Only a line made of blanks alone, which can only be the last line
    of a file that does not end with a newline, ends the labels. *)
Lemma collect_labels_stop (line : string) (rest : list string) :
  only_spaces line = true -> collect_labels (line :: rest) = [].
Proof. intros H. simpl. now rewrite H. Qed.

End ReaderFacts.

(** *** The reader run on the symbolic instance *)

Module Run.

Import Symbolic.

(** C1 (the code departs from it): on a file with the sensors A, B, C
    the call with [names=["Z"]] returns a montage named [("Z",)] whose
    position is the first row of the file, although no sensor of the
    file is called Z; and the call with [names=["A","C"]] returns the
    names [("A","C")] with, as positions, the single number at row 0,
    column 1 of the loaded array, not the rows of A and C. *)
Theorem filter_does_not_look_at_file :
  read_montage "abc.sfp" (Some ["Z"]) None true disk
    = (Ok {| pos := Arr1 ["1"; "2"; "3"]; names := NTuple ["Z"]; kind := "abc.sfp" |},
       ["/mne/montages/abc.sfp"])
  /\ read_montage "abc.sfp" (Some ["A"; "C"]) None true disk
    = (Ok {| pos := Arr0 "2"; names := NTuple ["A"; "C"]; kind := "abc.sfp" |},
       ["/mne/montages/abc.sfp"])
  /\ read_montage "abc.sfp" None None true disk
    = (Ok {| pos := Arr2 abc_positions; names := NArray ["A"; "B"; "C"];
             kind := "abc.sfp" |},
       ["/mne/montages/abc.sfp"]).
Proof. repeat split; vm_compute; reflexivity. Qed.

(** C2 (the code departs from it): neither X nor Y is a label of the
    file, yet the call with [names=["X","Y"]] returns a montage; the
    unpacking error is raised for the empty list only. *)
Theorem no_overlap_still_returns :
  PyStr.mem "X" ["A"; "B"; "C"] = false /\
  PyStr.mem "Y" ["A"; "B"; "C"] = false /\
  read_montage "abc.csd" (Some ["X"; "Y"]) None true disk
    = (Ok {| pos := Arr0 "2"; names := NTuple ["X"; "Y"]; kind := "abc.csd" |},
       ["/mne/montages/abc.csd"])
  /\ read_montage "abc.csd" (Some []) None true disk
    = (Raise (ValueError "need more than 0 values to unpack"),
       ["/mne/montages/abc.csd"]).
Proof. repeat split; vm_compute; reflexivity. Qed.

(** C7 (the code departs from it): with [names=["A"]] the montage
    returned has one name and a [pos] of length three (the three
    coordinates of the first row); with two names [pos] is a single
    number, which has no length; with three names the indexing raises
    [IndexError]. *)
Theorem filtered_lengths_differ :
  (exists m log,
      read_montage "abc.elc" (Some ["A"]) None true disk = (Ok m, log) /\
      ndarray_len (pos m) = Some 3 /\ names_len (names m) = Some 1)
  /\ (exists m log,
      read_montage "abc.elc" (Some ["A"; "B"]) None true disk = (Ok m, log) /\
      ndarray_len (pos m) = None /\ names_len (names m) = Some 2)
  /\ read_montage "abc.elc" (Some ["A"; "B"; "C"]) None true disk
     = (Raise IndexError, ["/mne/montages/abc.elc"]).
Proof.
  split; [|split].
  - eexists. eexists. split; [vm_compute; reflexivity|]. split; reflexivity.
  - eexists. eexists. split; [vm_compute; reflexivity|]. split; reflexivity.
  - vm_compute. reflexivity.
Qed.

(** C5 (the code departs from it): in a label section [A], empty line,
    line of two blanks, [B], the empty line and the line of blanks do
    not end the accumulation; each is stored as an empty label and [B]
    is stored after them. *)
Theorem elc_blank_lines_are_labels :
  read_montage "gap.elc" None None true disk
    = (Ok {| pos := Arr2 [["1"; "2"; "3"]; ["4"; "5"; "6"]];
             names := NList ["A"; ""; ""; "B"];
             kind := "gap.elc" |},
       ["/mne/montages/gap.elc"]).
Proof. vm_compute. reflexivity. Qed.

(** *** The general properties at concrete inputs *)

Lemma read_montage_unsupported_witness :
  read_montage "foo.xyz" (Some ["A"]) None true disk
    = (Raise (ValueError "Currently foo.xyz is not supported."), [])
  /\ PyStr.contains "foo.xyz" "Currently foo.xyz is not supported." = true.
Proof.
  apply (@read_montage_unsupported F float_of_string one deg2rad
           sphere_to_cartesian module_dir "foo.xyz" (Some ["A"]) None true disk);
    reflexivity.
Defined.

Lemma read_montage_kind_basename_witness :
  kind {| pos := Arr2 abc_positions; names := NArray ["A"; "B"; "C"];
          kind := "abc.sfp" |}
    = PosixPath.split_tail "/some/dir/abc.sfp" /\
  PyStr.contains "/" "abc.sfp" = false /\
  exists dir, "/some/dir/abc.sfp" = dir ++ "abc.sfp" /\
              (dir = "" \/ exists d, dir = d ++ "/").
Proof.
  apply (@read_montage_kind_basename F float_of_string one deg2rad
           sphere_to_cartesian module_dir "/some/dir/abc.sfp" None None true disk
           {| pos := Arr2 abc_positions; names := NArray ["A"; "B"; "C"];
              kind := "abc.sfp" |}
           ["/some/dir/abc.sfp"]).
  vm_compute. reflexivity.
Defined.

Lemma read_montage_names_verbatim_witness :
  select ["Z"] = Ok ([0], ["Z"]) /\
  names {| pos := Arr1 ["1"; "2"; "3"]; names := NTuple ["Z"]; kind := "abc.sfp" |}
    = NTuple ["Z"].
Proof.
  destruct (@read_montage_names_verbatim F float_of_string one deg2rad
              sphere_to_cartesian module_dir ["Z"] ltac:(discriminate))
    as [Hsel Hnames].
  split; [exact Hsel|].
  apply (Hnames "abc.sfp" None true disk _ ["/mne/montages/abc.sfp"]).
  vm_compute. reflexivity.
Defined.

Lemma read_montage_txt_phi_unused_witness :
  result_map (@pos F) (fst (read_montage "abc.txt" None None true disk))
    = result_map (@pos F) (fst (read_montage "abc.txt" None None true disk_phi))
  /\ (@None (list string) = None ->
      exists m1 m2,
        fst (read_montage "abc.txt" None None true disk) = Ok m1 /\
        fst (read_montage "abc.txt" None None true disk_phi) = Ok m2 /\
        pos m1 = pos m2 /\
        pos m1 = Arr2 (map (theta_only_position one deg2rad sphere_to_cartesian)
                           ["-92"; "92"; "0"])).
Proof.
  apply (@read_montage_txt_phi_unused F float_of_string one deg2rad
           sphere_to_cartesian module_dir "abc.txt" None None true disk disk_phi
           abc_txt abc_txt_phi
           [("A", ("-92", "-72")); ("B", ("92", "72")); ("C", ("0", "0"))]
           [("A", ("-92", "18")); ("B", ("92", "-18")); ("C", ("0", "45"))]);
    vm_compute; reflexivity.
Defined.

Lemma txt_csd_labels_four_bytes_witness :
  (exists content rows,
      disk "/mne/montages/long.txt" = Some content /\
      loadtxt_rows 1 content = Ok rows /\
      ["Fp1l"; "Fp2"] = map (fun vals => substring 0 4 (hd "" vals)) rows /\
      Forall (fun s => String.length s <= 4) ["Fp1l"; "Fp2"])
  /\ row_txt float_of_string ["Fp1left"; "-92"; "-72"] = Ok ("Fp1l", ("-92", "-72"))
  /\ (exists r', row_csd float_of_string
                   ["Fp1left"; "10"; "20"; "1"; "1"; "2"; "3"; "0"] = Ok r' /\
                 label r' = "Fp1l")
  /\ (exists m,
        fst (read_montage "long.csd" None None true disk) = Ok m /\
        labels_of (names m) = ["Fp1l"; "Fp2"] /\
        Forall (fun s => String.length s <= 4) (labels_of (names m)))
  /\ (exists m,
        fst (read_montage "long.txt" None None true disk) = Ok m /\
        labels_of (names m) = ["Fp1l"; "Fp2"] /\
        Forall (fun s => String.length s <= 4) (labels_of (names m))).
Proof.
  destruct (@txt_csd_labels_four_bytes F float_of_string one deg2rad
              sphere_to_cartesian module_dir) as [Hfile [Htxt [Hcsd Hload]]].
  split; [|split; [|split; [|split]]].
  - apply (Hfile "long.txt" None true disk
             {| pos := Arr2 [["x(rad(-92),rad(-92),1.0)"; "y(rad(-92),rad(-92),1.0)";
                              "z(rad(-92),rad(-92),1.0)"];
                             ["x(rad(92),rad(92),1.0)"; "y(rad(92),rad(92),1.0)";
                              "z(rad(92),rad(92),1.0)"]];
                names := NArray ["Fp1l"; "Fp2"];
                kind := "long.txt" |}
             ["/mne/montages/long.txt"]).
    + left. reflexivity.
    + vm_compute. reflexivity.
  - apply (Htxt "Fp1" "Fp1left" ["-92"; "-72"] ("Fp1", ("-92", "-72"))).
    reflexivity.
  - apply (Hcsd "Fp1" "Fp1left" ["10"; "20"; "1"; "1"; "2"; "3"; "0"]
             (Build_csd_row "Fp1" "10" "20" "1" "1" "2" "3" "0")).
    reflexivity.
  - apply (Hload "long.csd" None true disk long_csd
             [["Fp1left"; "10"; "20"; "1"; "1"; "2"; "3"; "0"];
              ["Fp2"; "30"; "40"; "1"; "4"; "5"; "6"; "0"]]).
    + right. reflexivity.
    + reflexivity.
    + vm_compute. reflexivity.
    + repeat (apply Forall_cons; [split; [reflexivity|]|]);
        repeat (apply Forall_cons; [discriminate|]); apply Forall_nil.
  - apply (Hload "long.txt" None true disk long_txt
             [["Fp1left"; "-92"; "-72"]; ["Fp2"; "92"; "72"]]).
    + left. reflexivity.
    + reflexivity.
    + vm_compute. reflexivity.
    + repeat (apply Forall_cons; [split; [reflexivity|]|]);
        repeat (apply Forall_cons; [discriminate|]); apply Forall_nil.
Defined.

End Run.

(** ** Further properties of the reader *)

(** *** Lines of a file *)

Lemma lines_aux_line (cur h : list ascii) (rest : list ascii) :
  forallb (fun c => negb (Ascii.eqb c "010")) h = true ->
  PyStr.lines_aux cur (h ++ "010"%char :: rest)%list
  = PyStr.of_chars (rev cur ++ h ++ ["010"%char])%list :: PyStr.lines_aux [] rest.
Proof.
  revert cur. induction h as [|c h IH]; intros cur Hh; simpl.
  - reflexivity.
  - simpl in Hh. apply andb_true_iff in Hh. destruct Hh as [Hc Hh].
    apply negb_true_iff in Hc. rewrite Hc. rewrite (IH (c :: cur) Hh).
    simpl. now rewrite <- app_assoc.
Qed.

(** The first line of a content that starts with a full line. *)
Lemma readlines_first (h body : string) :
  no_newline h = true ->
  PyStr.readlines (h ++ NL ++ body) = (h ++ NL) :: PyStr.readlines body.
Proof.
  intros Hh. unfold PyStr.readlines, NL.
  rewrite chars_app. simpl PyStr.chars at 2.
  change (PyStr.chars (String "010" body)) with ("010"%char :: PyStr.chars body).
  rewrite (lines_aux_line [] (PyStr.chars h) (PyStr.chars body) Hh).
  simpl rev. simpl app at 1. f_equal.
  rewrite of_chars_app, of_chars_chars. reflexivity.
Qed.

Lemma universal_newlines_line (h rest : list ascii) :
  forallb (fun c => negb (Ascii.eqb c "010") && negb (Ascii.eqb c "013")) h = true ->
  PyStr.universal_newlines (h ++ "010"%char :: rest)
  = (h ++ "010"%char :: PyStr.universal_newlines rest)%list.
Proof.
  induction h as [|c h IH]; intros Hh.
  - reflexivity.
  - simpl in Hh. apply andb_true_iff in Hh. destruct Hh as [Hc Hh].
    apply andb_true_iff in Hc. destruct Hc as [_ Hcr].
    apply negb_true_iff in Hcr.
    change ((c :: h) ++ "010"%char :: rest)%list
      with (c :: (h ++ "010"%char :: rest))%list.
    cbn [PyStr.universal_newlines]. rewrite Hcr. now rewrite (IH Hh).
Qed.

Lemma no_linebreak_no_newline (h : string) :
  no_linebreak h = true -> no_newline h = true.
Proof.
  unfold no_linebreak, no_newline.
  induction (PyStr.chars h) as [|c l IH]; simpl; [reflexivity|].
  intros H. apply andb_true_iff in H. destruct H as [Hc Hl].
  apply andb_true_iff in Hc. destruct Hc as [Hlf _].
  now rewrite Hlf, (IH Hl).
Qed.

(** The first line of a content that starts with a full line, for a
    file read in universal-newline mode. *)
Lemma readlines_universal_first (h body : string) :
  no_linebreak h = true ->
  PyStr.readlines_universal (h ++ NL ++ body)
  = (h ++ NL) :: PyStr.readlines_universal body.
Proof.
  intros Hh. unfold PyStr.readlines_universal, NL.
  rewrite chars_app.
  change (PyStr.chars (String "010" "" ++ body))
    with ("010"%char :: PyStr.chars body).
  rewrite (universal_newlines_line (PyStr.chars h) (PyStr.chars body) Hh).
  rewrite (lines_aux_line [] (PyStr.chars h)
             (PyStr.universal_newlines (PyStr.chars body))
             (no_linebreak_no_newline h Hh)).
  simpl rev. simpl app at 1. f_equal.
  rewrite of_chars_app, of_chars_chars. reflexivity.
Qed.

Section CallFacts.

Variable F : Type.
Variable float_of_string : string -> option F.
Variable one : F.
Variable deg2rad : F -> F.
Variable sphere_to_cartesian : F -> F -> F -> F * F * F.
Variable module_dir : string.

Let rm := read_montage float_of_string one deg2rad sphere_to_cartesian module_dir.
Let ld := load float_of_string one deg2rad sphere_to_cartesian.

(** *** One file per call *)

Lemma load_elc k path fs :
  PyStr.endswith ".elc" k = true ->
  ld k path fs
  = run_parser (parse_elc float_of_string) (PosixPath.join path k) fs.
Proof.
  intros H. unfold ld, load.
  rewrite (@endswith_exclusive ".elc" ".sfp" k eq_refl ltac:(discriminate) H).
  rewrite H. apply open_then_parse.
Qed.

Lemma load_supported k :
  supported k = true ->
  exists parse, forall path fs,
    ld k path fs = run_parser parse (PosixPath.join path k) fs.
Proof.
  unfold supported. intros H.
  destruct (PyStr.endswith ".sfp" k) eqn:E1.
  { eexists. intros path fs. now apply load_sfp. }
  destruct (PyStr.endswith ".elc" k) eqn:E2.
  { eexists. intros path fs. now apply load_elc. }
  destruct (PyStr.endswith ".txt" k) eqn:E3.
  { eexists. intros path fs. now apply load_txt. }
  destruct (PyStr.endswith ".csd" k) eqn:E4; [|discriminate].
  eexists. intros path fs. now apply load_csd.
Qed.

(** What is done after the load opens no file. *)
Lemma read_montage_log k req path scale fs :
  snd (rm k req path scale fs) = snd (ld k (default_path module_dir path) fs).
Proof.
  unfold rm, read_montage, bind. fold ld.
  destruct (ld k (default_path module_dir path) fs) as [[[p n]|e] log];
    [|reflexivity].
  destruct req as [l|]; simpl; [|now rewrite !app_nil_r].
  unfold lift. destruct (select l) as [[sel l']|e]; simpl;
    [|now rewrite app_nil_r].
  destruct (getitem_tuple p sel) as [q|e]; simpl; now rewrite !app_nil_r.
Qed.

(** The call in terms of the load. *)
Lemma read_montage_run k req path scale fs :
  rm k req path scale fs
  = (rbind (fst (ld k (default_path module_dir path) fs)) (fun pn =>
       match req with
       | Some l =>
           rbind (select l) (fun sn =>
           rbind (getitem_tuple (fst pn) (fst sn)) (fun q =>
           Ok {| pos := q; names := NTuple (snd sn);
                 kind := PosixPath.split_tail k |}))
       | None =>
           Ok {| pos := fst pn; names := snd pn;
                 kind := PosixPath.split_tail k |}
       end),
     snd (ld k (default_path module_dir path) fs)).
Proof.
  apply injective_projections; simpl.
  - unfold rm, ld.
    destruct (load float_of_string one deg2rad sphere_to_cartesian k
                (default_path module_dir path) fs) as [r log] eqn:E.
    apply (@read_montage_after_load F float_of_string one deg2rad
             sphere_to_cartesian module_dir k req path scale fs r log E).
  - apply read_montage_log.
Qed.

(** Two calls whose loads agree are the same call. *)
Lemma read_montage_same_load k req path1 path2 scale fs1 fs2 :
  ld k (default_path module_dir path1) fs1 = ld k (default_path module_dir path2) fs2 ->
  rm k req path1 scale fs1 = rm k req path2 scale fs2.
Proof. intros H. now rewrite !read_montage_run, H. Qed.

Lemma join_absolute_kind (p k : string) :
  PyStr.startswith "/" k = true -> PosixPath.join p k = k.
Proof. intros H. unfold PosixPath.join. now rewrite H. Qed.

Lemma getitem_tuple_many (a : ndarray F) (sel : list nat) :
  3 <= length sel -> getitem_tuple a sel = Raise IndexError.
Proof.
  destruct sel as [|i [|j [|h sel]]]; simpl; try lia.
  intros _. destruct a; reflexivity.
Qed.

(** X1: a call with one of the four suffixes opens exactly one file,
    [op.join(path, kind)] (with the bundled folder for [path=None]),
    whatever [names] and [scale] are and however the call ends; when
    that file cannot be read the call raises the [IOError] of that
    name. *)
Theorem read_montage_opens_one_file k req path scale fs :
  supported k = true ->
  snd (rm k req path scale fs)
    = [PosixPath.join (default_path module_dir path) k]
  /\ (fs (PosixPath.join (default_path module_dir path) k) = None ->
      fst (rm k req path scale fs)
        = Raise (IOError (PosixPath.join (default_path module_dir path) k))).
Proof.
  intros Hk. destruct (@load_supported k Hk) as [parse Hld].
  rewrite read_montage_run, Hld. unfold run_parser. simpl.
  destruct (fs (PosixPath.join (default_path module_dir path) k)); simpl.
  - split; [reflexivity | discriminate].
  - split; reflexivity.
Qed.

(** X2: when [kind] starts with a slash, [op.join] returns [kind]
    itself, so the argument [path] has no effect on the call. *)
Theorem read_montage_absolute_kind k req path path' scale fs :
  PyStr.startswith "/" k = true ->
  rm k req path scale fs = rm k req path' scale fs.
Proof.
  intros H. apply read_montage_same_load. unfold ld, load.
  now rewrite !(fun p => @join_absolute_kind p k H).
Qed.

(** X3: a call with a non-empty [names] is the call without [names]
    followed by the indexing of its [pos] with the tuple
    [(0, ..., len(names)-1)]: it opens the same file, fails where the
    unfiltered call fails with the same exception, and otherwise the
    requested names and the unfiltered [pos] decide the result. *)
Theorem read_montage_filter_after_load k l path scale fs :
  l <> [] ->
  rm k (Some l) path scale fs
  = (rbind (fst (rm k None path scale fs)) (fun m0 =>
       rbind (getitem_tuple (pos m0) (seq 0 (length l))) (fun q =>
       Ok {| pos := q; names := NTuple l; kind := kind m0 |})),
     snd (rm k None path scale fs)).
Proof.
  intros Hl. rewrite !read_montage_run. simpl.
  destruct (fst (ld k (default_path module_dir path) fs)) as [[p n]|e];
    simpl; [|reflexivity].
  now rewrite (@select_all l Hl).
Qed.

(** X4: with [names=[]] no montage is ever returned; when the call
    without [names] succeeds, the call with the empty list raises the
    [ValueError] of the unpacking. *)
Theorem read_montage_empty_names k path scale fs :
  (forall m log, rm k (Some []) path scale fs <> (Ok m, log))
  /\ (forall m0 log,
        rm k None path scale fs = (Ok m0, log) ->
        rm k (Some []) path scale fs
          = (Raise (ValueError "need more than 0 values to unpack"), log)).
Proof.
  rewrite !read_montage_run.
  destruct (ld k (default_path module_dir path) fs) as [[[p n]|e] log0]; simpl.
  - split; [discriminate|]. intros m0 log H. now inversion H.
  - split; discriminate.
Qed.

(** X5: with three or more names no montage is ever returned, for any
    format: the tuple of indices has more entries than the array has
    axes.  When the call without [names] succeeds, the call raises
    [IndexError]. *)
Theorem read_montage_three_names k l path scale fs :
  3 <= length l ->
  (forall m log, rm k (Some l) path scale fs <> (Ok m, log))
  /\ (forall m0 log,
        rm k None path scale fs = (Ok m0, log) ->
        rm k (Some l) path scale fs = (Raise IndexError, log)).
Proof.
  intros Hl. assert (Hne : l <> []) by (destruct l; [simpl in Hl; lia | discriminate]).
  rewrite !read_montage_run.
  destruct (ld k (default_path module_dir path) fs) as [[[p n]|e] log0]; simpl.
  - rewrite (@select_all l Hne). simpl.
    rewrite getitem_tuple_many by (now rewrite length_seq). simpl.
    split; [discriminate|]. intros m0 log H. now inversion H.
  - split; discriminate.
Qed.

(** *** Shape of an unfiltered montage *)

Lemma c_rows3 (xs ys zs : list F) (p : ndarray F) :
  c_ xs ys zs = Ok p ->
  exists rows, p = Arr2 rows /\ length rows = length xs /\
               Forall (fun r => length r = 3) rows.
Proof.
  revert ys zs p. induction xs as [|a xs IH]; intros [|b ys] [|c zs] p;
    simpl; try discriminate.
  - intros H. inversion H. exists []. auto.
  - intros H. apply rbind_ok in H. destruct H as [q [Hq H]].
    destruct (IH _ _ _ Hq) as [rows [-> [Hl H3]]].
    inversion H. exists ([a; b; c] :: rows). simpl. rewrite Hl. auto.
Qed.

Lemma parse_sfp_shape content p n :
  parse_sfp float_of_string content = Ok (p, n) ->
  exists rows, p = Arr2 rows /\ length rows = length (labels_of n) /\
               Forall (fun r => length r = 3) rows.
Proof.
  unfold parse_sfp. intros H.
  apply rbind_ok in H. destruct H as [data [_ H]].
  apply rbind_ok in H. destruct H as [q [Hq H]]. inversion H; subst.
  destruct (c_rows3 _ _ _ Hq) as [rows [-> [Hl H3]]].
  exists rows. split; [reflexivity|]. split; [|exact H3].
  now rewrite labels_of_label_field, Hl, !length_map.
Qed.

Lemma parse_csd_shape content p n :
  parse_csd float_of_string content = Ok (p, n) ->
  exists rows, p = Arr2 rows /\ length rows = length (labels_of n) /\
               Forall (fun r => length r = 3) rows.
Proof.
  unfold parse_csd. intros H.
  apply rbind_ok in H. destruct H as [data [_ H]].
  apply rbind_ok in H. destruct H as [q [Hq H]]. inversion H; subst.
  destruct (c_rows3 _ _ _ Hq) as [rows [-> [Hl H3]]].
  exists rows. split; [reflexivity|]. split; [|exact H3].
  now rewrite labels_of_label_field, Hl, !length_map.
Qed.

Lemma theta_only_position_length (t : F) :
  length (theta_only_position one deg2rad sphere_to_cartesian t) = 3.
Proof.
  unfold theta_only_position.
  now destruct (sphere_to_cartesian (deg2rad t) (deg2rad t) one) as [[a b] c].
Qed.

Lemma parse_txt_shape content p n :
  parse_txt float_of_string one deg2rad sphere_to_cartesian content = Ok (p, n) ->
  exists rows, p = Arr2 rows /\ length rows = length (labels_of n) /\
               Forall (fun r => length r = 3) rows.
Proof.
  intros H. assert (H' := H). unfold parse_txt in H'.
  apply rbind_ok in H'. destruct H' as [data [Hd _]].
  rewrite (@parse_txt_table F float_of_string one deg2rad sphere_to_cartesian
             content data Hd) in H.
  inversion H; subst. eexists. split; [reflexivity|]. split.
  - now rewrite labels_of_label_field, !length_map.
  - apply Forall_map, Forall_forall. intros t _.
    apply theta_only_position_length.
Qed.

(** X6: without [names], the montage read from a [.sfp], [.txt] or
    [.csd] file has a 2-d [pos] with one row per label and three
    numbers in every row. *)
Theorem read_montage_unfiltered_shape k path scale fs m log :
  PyStr.endswith ".sfp" k = true \/ PyStr.endswith ".txt" k = true
    \/ PyStr.endswith ".csd" k = true ->
  rm k None path scale fs = (Ok m, log) ->
  exists rows,
    pos m = Arr2 rows /\
    length rows = length (labels_of (names m)) /\
    Forall (fun r => length r = 3) rows.
Proof.
  intros Hk H. rewrite read_montage_run in H.
  destruct (ld k (default_path module_dir path) fs) as [[[p n]|e] log0] eqn:Hld;
    simpl in H; [|discriminate].
  inversion H; subst. simpl.
  destruct Hk as [Hk|[Hk|Hk]].
  - unfold ld in Hld.
    rewrite (@load_sfp F float_of_string one deg2rad sphere_to_cartesian k _ fs Hk) in Hld.
    apply run_parser_ok in Hld. destruct Hld as [content [_ Hp]].
    now apply parse_sfp_shape in Hp.
  - unfold ld in Hld.
    rewrite (@load_txt F float_of_string one deg2rad sphere_to_cartesian k _ fs Hk) in Hld.
    apply run_parser_ok in Hld. destruct Hld as [content [_ Hp]].
    now apply parse_txt_shape in Hp.
  - unfold ld in Hld.
    rewrite (@load_csd F float_of_string one deg2rad sphere_to_cartesian k _ fs Hk) in Hld.
    apply run_parser_ok in Hld. destruct Hld as [content [_ Hp]].
    now apply parse_csd_shape in Hp.
Qed.

(** *** The [.csd] format *)

(** X7: in a [.csd] file only the columns [label], [x], [y], [z]
    reach the result.  Two versions of the file whose tables agree on
    these four columns give the same call, whatever stands in the
    columns theta, phi, radius and off_sph; without [names] the rows of
    [pos] are the [x, y, z] of the data rows, in file order. *)
Theorem read_montage_csd_unused_columns k req path scale fs1 fs2 c1 c2 t1 t2 :
  PyStr.endswith ".csd" k = true ->
  fs1 (PosixPath.join (default_path module_dir path) k) = Some c1 ->
  fs2 (PosixPath.join (default_path module_dir path) k) = Some c2 ->
  loadtxt_struct (row_csd float_of_string) 2 c1 = Ok t1 ->
  loadtxt_struct (row_csd float_of_string) 2 c2 = Ok t2 ->
  map (fun r => (label r, [x r; y r; z r])) t1
    = map (fun r => (label r, [x r; y r; z r])) t2 ->
  rm k req path scale fs1 = rm k req path scale fs2
  /\ (req = None ->
      exists m, fst (rm k req path scale fs1) = Ok m /\
                pos m = Arr2 (map (fun r => [x r; y r; z r]) t1) /\
                labels_of (names m) = map (@label F) t1).
Proof.
  intros Hk Hf1 Hf2 H1 H2 Heq.
  assert (Hlab : map (@label F) t1 = map (@label F) t2).
  { apply (f_equal (map fst)) in Heq. now rewrite !map_map in Heq. }
  assert (Hxyz : map (fun r => [x r; y r; z r]) t1
                 = map (fun r : csd_row F => [x r; y r; z r]) t2).
  { apply (f_equal (map snd)) in Heq. now rewrite !map_map in Heq. }
  assert (L1 : ld k (default_path module_dir path) fs1
               = (Ok (Arr2 (map (fun r => [x r; y r; z r]) t1),
                      label_field (map (@label F) t1)),
                  [PosixPath.join (default_path module_dir path) k])).
  { unfold ld.
    rewrite (@load_csd F float_of_string one deg2rad sphere_to_cartesian k _ fs1 Hk).
    unfold run_parser. now rewrite Hf1, (@parse_csd_table F float_of_string c1 t1 H1). }
  assert (L2 : ld k (default_path module_dir path) fs2
               = (Ok (Arr2 (map (fun r => [x r; y r; z r]) t1),
                      label_field (map (@label F) t1)),
                  [PosixPath.join (default_path module_dir path) k])).
  { unfold ld.
    rewrite (@load_csd F float_of_string one deg2rad sphere_to_cartesian k _ fs2 Hk).
    unfold run_parser. now rewrite Hf2, (@parse_csd_table F float_of_string c2 t2 H2), Hlab, Hxyz. }
  split.
  - apply read_montage_same_load. now rewrite L1, L2.
  - intros ->. rewrite read_montage_run, L1. simpl.
    eexists. split; [reflexivity|]. simpl.
    split; [reflexivity | apply labels_of_label_field].
Qed.

(** *** Rows that do not convert *)










(** *** Header lines *)

Lemma loadtxt_rows_header (n : nat) (h body : string) :
  no_linebreak h = true ->
  loadtxt_rows (S n) (h ++ NL ++ body) = loadtxt_rows n body.
Proof.
  intros Hh. unfold loadtxt_rows.
  now rewrite (@readlines_universal_first h body Hh).
Qed.

Lemma loadtxt_rows_with_header (hs : list string) (n : nat) (body : string) :
  forallb no_linebreak hs = true ->
  loadtxt_rows (length hs + n) (with_header hs body) = loadtxt_rows n body.
Proof.
  induction hs as [|h hs IH]; intros H; [reflexivity|].
  simpl in H. apply andb_true_iff in H. destruct H as [Hh Hhs].
  change (loadtxt_rows (S (length hs + n)) (h ++ NL ++ with_header hs body)
          = loadtxt_rows n body).
  rewrite (@loadtxt_rows_header (length hs + n) h (with_header hs body) Hh). now apply IH.
Qed.

(** X9: the rows skipped at the head of a [.txt] file (one) and of a
    [.csd] file (two) are not looked at: two files that differ only in
    these lines give the same call.  A header line here is a text
    without line feed and without carriage return (either would end
    the line for [np.loadtxt], which reads in universal-newline mode),
    followed by a line feed. *)
Theorem read_montage_header_ignored k req path scale fs1 fs2 hs1 hs2 body :
  PyStr.endswith ".txt" k = true \/ PyStr.endswith ".csd" k = true ->
  length hs1 = skiprows_of k -> length hs2 = skiprows_of k ->
  forallb no_linebreak hs1 = true -> forallb no_linebreak hs2 = true ->
  fs1 (PosixPath.join (default_path module_dir path) k) = Some (with_header hs1 body) ->
  fs2 (PosixPath.join (default_path module_dir path) k) = Some (with_header hs2 body) ->
  rm k req path scale fs1 = rm k req path scale fs2.
Proof.
  intros Hk Hl1 Hl2 Hn1 Hn2 Hf1 Hf2. apply read_montage_same_load.
  assert (Hrows : forall R (conv : list string -> result R),
             loadtxt_struct conv (skiprows_of k) (with_header hs1 body)
             = loadtxt_struct conv (skiprows_of k) (with_header hs2 body)).
  { intros R conv. unfold loadtxt_struct.
    rewrite <- Hl1 at 1. rewrite <- Hl2.
    rewrite <- (Nat.add_0_r (length hs1)), <- (Nat.add_0_r (length hs2)).
    now rewrite !loadtxt_rows_with_header. }
  unfold skiprows_of in Hrows. unfold ld.
  destruct Hk as [Hk|Hk].
  - rewrite (@endswith_exclusive ".txt" ".sfp" k eq_refl ltac:(discriminate) Hk), Hk in Hrows.
    rewrite !(fun p fs => @load_txt F float_of_string one deg2rad sphere_to_cartesian k p fs Hk).
    unfold run_parser. rewrite Hf1, Hf2. unfold parse_txt. now rewrite Hrows.
  - rewrite (@endswith_exclusive ".csd" ".sfp" k eq_refl ltac:(discriminate) Hk) in Hrows.
    rewrite (@endswith_exclusive ".csd" ".txt" k eq_refl ltac:(discriminate) Hk) in Hrows.
    rewrite !(fun p fs => @load_csd F float_of_string one deg2rad sphere_to_cartesian k p fs Hk).
    unfold run_parser. rewrite Hf1, Hf2. unfold parse_csd. now rewrite Hrows.
Qed.

(** *** The sections of an [.elc] file *)

Lemma skip_past_absent marker lines :
  marker_absent marker lines = true -> skip_past marker lines = [].
Proof.
  induction lines as [|line rest IH]; simpl; [reflexivity|].
  intros H. apply andb_true_iff in H. destruct H as [Hl Hr].
  apply negb_true_iff in Hl. rewrite Hl. now apply IH.
Qed.



Lemma skip_past_with_header marker hs body :
  forallb no_newline hs = true ->
  marker_absent marker (map (fun h => h ++ NL) hs) = true ->
  skip_past marker (PyStr.readlines (with_header hs body))
  = skip_past marker (PyStr.readlines body).
Proof.
  induction hs as [|h hs IH]; intros Hn Hm; [reflexivity|].
  simpl in Hn, Hm.
  apply andb_true_iff in Hn. destruct Hn as [Hh Hn].
  apply andb_true_iff in Hm. destruct Hm as [Hl Hm].
  apply negb_true_iff in Hl.
  change (with_header (h :: hs) body) with (h ++ NL ++ with_header hs body).
  rewrite (@readlines_first h (with_header hs body) Hh).
  simpl. rewrite Hl. now apply IH.
Qed.

(** X10: what stands before the line with [Positions] in an [.elc]
    file is discarded: full lines without the marker put in front of
    the file do not change the call. *)
Theorem read_montage_elc_preamble k req path scale fs1 fs2 hs body :
  PyStr.endswith ".elc" k = true ->
  forallb no_newline hs = true ->
  marker_absent ("Positions" ++ NL) (map (fun h => h ++ NL) hs) = true ->
  fs1 (PosixPath.join (default_path module_dir path) k) = Some (with_header hs body) ->
  fs2 (PosixPath.join (default_path module_dir path) k) = Some body ->
  rm k req path scale fs1 = rm k req path scale fs2.
Proof.
  intros Hk Hn Hm Hf1 Hf2. apply read_montage_same_load. unfold ld.
  rewrite !(fun p fs => @load_elc k p fs Hk).
  unfold run_parser. rewrite Hf1, Hf2. unfold parse_elc.
  now rewrite (@skip_past_with_header ("Positions" ++ NL) hs body Hn Hm).
Qed.

(** X11: an [.elc] file in which no line holds [Positions] followed by
    a newline is not refused: the call without [names] returns a
    montage with an empty 1-d [pos] and the empty list of names. *)
Theorem read_montage_elc_no_positions k path scale fs content :
  PyStr.endswith ".elc" k = true ->
  fs (PosixPath.join (default_path module_dir path) k) = Some content ->
  marker_absent ("Positions" ++ NL) (PyStr.readlines content) = true ->
  rm k None path scale fs
  = (Ok {| pos := Arr1 []; names := NList []; kind := PosixPath.split_tail k |},
     [PosixPath.join (default_path module_dir path) k]).
Proof.
  intros Hk Hfs Hm. rewrite read_montage_run.
  rewrite (@load_elc k _ fs Hk). unfold run_parser. rewrite Hfs.
  unfold parse_elc. rewrite (@skip_past_absent _ _ Hm). reflexivity.
Qed.


(** *** Labels of an [.elc] file *)

Lemma lstrip_absent (c : ascii) (l : list ascii) :
  forallb (fun a => negb (Ascii.eqb a c)) l = true ->
  PyStr.lstrip_chars c l = l.
Proof.
  destruct l as [|a l]; simpl; [reflexivity|].
  intros H. apply andb_true_iff in H. destruct H as [Ha _].
  apply negb_true_iff in Ha. now rewrite Ha.
Qed.

Lemma lstrip_keeps_absent (c d : ascii) (l : list ascii) :
  forallb (fun a => negb (Ascii.eqb a d)) l = true ->
  forallb (fun a => negb (Ascii.eqb a d)) (PyStr.lstrip_chars c l) = true.
Proof.
  induction l as [|a l IH]; simpl; [reflexivity|].
  intros H. destruct (Ascii.eqb a c).
  - apply andb_true_iff in H. now apply IH.
  - exact H.
Qed.

Lemma lstrip_space_before_newline (l : list ascii) :
  PyStr.lstrip_chars " " (l ++ ["010"%char])
  = (PyStr.lstrip_chars " " l ++ ["010"%char])%list.
Proof.
  induction l as [|a l IH]; simpl; [reflexivity|].
  now destruct (Ascii.eqb a " ").
Qed.

Lemma forallb_rev {A} (f : A -> bool) (l : list A) :
  forallb f (rev l) = forallb f l.
Proof.
  induction l as [|a l IH]; simpl; [reflexivity|].
  rewrite forallb_app, IH. simpl. rewrite andb_true_r. apply andb_comm.
Qed.

Lemma lstrip_cons_eq (c : ascii) (l : list ascii) :
  PyStr.lstrip_chars c (c :: l) = PyStr.lstrip_chars c l.
Proof. simpl. now rewrite Ascii.eqb_refl. Qed.

Lemma lstrip_cons_neq (c a : ascii) (l : list ascii) :
  Ascii.eqb a c = false -> PyStr.lstrip_chars c (a :: l) = a :: l.
Proof. intros H. simpl. now rewrite H. Qed.

Lemma strip_space_line (l : list ascii) :
  rev (PyStr.lstrip_chars " " (rev (PyStr.lstrip_chars " " (l ++ ["010"%char]))))
  = (PyStr.lstrip_chars " " l ++ ["010"%char])%list.
Proof.
  rewrite lstrip_space_before_newline, rev_app_distr.
  change (rev ["010"%char] ++ rev (PyStr.lstrip_chars " " l))%list
    with ("010"%char :: rev (PyStr.lstrip_chars " " l)).
  rewrite (@lstrip_cons_neq " " "010" _ eq_refl).
  change ("010"%char :: rev (PyStr.lstrip_chars " " l))
    with (["010"%char] ++ rev (PyStr.lstrip_chars " " l))%list.
  now rewrite rev_app_distr, rev_involutive.
Qed.

Lemma strip_newline_line (l : list ascii) :
  forallb (fun a => negb (Ascii.eqb a "010")) l = true ->
  rev (PyStr.lstrip_chars "010" (rev (PyStr.lstrip_chars "010" (l ++ ["010"%char]))))
  = l.
Proof.
  intros H. destruct l as [|a l]; [reflexivity|].
  assert (Ha : Ascii.eqb a "010" = false).
  { simpl in H. apply andb_true_iff in H. destruct H as [Ha _].
    now apply negb_true_iff in Ha. }
  change ((a :: l) ++ ["010"%char])%list with (a :: (l ++ ["010"%char]))%list.
  rewrite (@lstrip_cons_neq "010" a _ Ha).
  change (a :: (l ++ ["010"%char]))%list with ((a :: l) ++ ["010"%char])%list.
  rewrite rev_app_distr.
  change (rev ["010"%char] ++ rev (a :: l))%list with ("010"%char :: rev (a :: l)).
  rewrite lstrip_cons_eq.
  rewrite lstrip_absent by (now rewrite forallb_rev).
  apply rev_involutive.
Qed.

Lemma strip_line (body : string) :
  no_newline body = true ->
  PyStr.strip "010" (PyStr.strip " " (body ++ NL))
  = PyStr.of_chars (PyStr.lstrip_chars " " (PyStr.chars body)).
Proof.
  unfold no_newline. intros Hb. unfold PyStr.strip.
  rewrite chars_app. change (PyStr.chars NL) with ["010"%char].
  rewrite strip_space_line, chars_of_chars.
  rewrite strip_newline_line; [reflexivity|].
  now apply lstrip_keeps_absent.
Qed.

(** X13: a line of the label section that ends with its newline is
    stored without the newline and without its leading blanks; blanks
    at its end are kept. *)
Theorem collect_labels_line (body : string) (rest : list string) :
  no_newline body = true ->
  collect_labels ((body ++ NL) :: rest)
  = PyStr.of_chars (PyStr.lstrip_chars " " (PyStr.chars body))
      :: collect_labels rest.
Proof.
  intros Hb. rewrite collect_labels_newline. now rewrite (@strip_line body Hb).
Qed.

(** *** [Montage.__repr__] after a filtered call *)

(** X14: a montage returned by a call with [names] has one or two
    names, and its [repr] is the text made of the last component of
    [kind] and of the requested names, joined by a comma and a
    blank. *)
Theorem repr_after_filtered_call k l path scale fs m log :
  rm k (Some l) path scale fs = (Ok m, log) ->
  1 <= length l <= 2 /\
  Montage_repr m
  = Ok ("<Montage | " ++ PosixPath.split_tail k ++ " - Channels: "
          ++ String.concat ", " l ++ " ...>").
Proof.
  intros H. rewrite read_montage_run in H.
  destruct (ld k (default_path module_dir path) fs) as [[[p n]|e] log0];
    cbn [fst snd rbind] in H; [|discriminate].
  assert (Hne : l <> []) by (intros ->; cbn in H; discriminate).
  rewrite (@select_all l Hne) in H. cbn [fst snd rbind] in H.
  destruct (le_lt_dec 3 (length l)) as [Hlong|Hshort].
  - rewrite getitem_tuple_many in H by (now rewrite length_seq).
    cbn [rbind] in H. discriminate.
  - destruct (getitem_tuple p (seq 0 (length l))) as [q|e];
      cbn [rbind] in H; [|discriminate].
    inversion H; subst. split.
    + destruct l; [congruence | simpl in *; lia].
    + unfold Montage_repr. cbn [names kind names_slice3 rbind].
      rewrite firstn_all2 by lia. reflexivity.
Qed.

End CallFacts.

(** *** The further properties at concrete inputs *)

Module RunMore.

Import Symbolic.
Import Fixtures.

Lemma read_montage_opens_one_file_witness :
  snd (read_montage "nowhere.sfp" (Some ["A"]) (Some "/tmp") true disk)
    = ["/tmp/nowhere.sfp"]
  /\ fst (read_montage "nowhere.sfp" (Some ["A"]) (Some "/tmp") true disk)
    = Raise (IOError "/tmp/nowhere.sfp").
Proof.
  destruct (@read_montage_opens_one_file F float_of_string one deg2rad
              sphere_to_cartesian module_dir "nowhere.sfp" (Some ["A"])
              (Some "/tmp") true disk eq_refl) as [Hlog Hio].
  split; [exact Hlog | apply Hio; reflexivity].
Defined.

Lemma read_montage_absolute_kind_witness :
  read_montage "/some/dir/abc.sfp" None None true disk
  = read_montage "/some/dir/abc.sfp" None (Some "/tmp") true disk.
Proof.
  apply (@read_montage_absolute_kind F float_of_string one deg2rad
           sphere_to_cartesian module_dir "/some/dir/abc.sfp" None None
           (Some "/tmp") true disk).
  reflexivity.
Defined.

Lemma read_montage_filter_after_load_witness :
  read_montage "abc.sfp" (Some ["Z"]) None true disk
  = (rbind (fst (read_montage "abc.sfp" None None true disk)) (fun m0 =>
       rbind (getitem_tuple (pos m0) [0]) (fun q =>
       Ok {| pos := q; names := NTuple ["Z"]; kind := kind m0 |})),
     snd (read_montage "abc.sfp" None None true disk)).
Proof.
  apply (@read_montage_filter_after_load F float_of_string one deg2rad
           sphere_to_cartesian module_dir "abc.sfp" ["Z"] None true disk).
  discriminate.
Defined.

Lemma read_montage_empty_names_witness :
  read_montage "abc.sfp" (Some []) None true disk
  = (Raise (ValueError "need more than 0 values to unpack"),
     ["/mne/montages/abc.sfp"]).
Proof.
  apply (proj2 (@read_montage_empty_names F float_of_string one deg2rad
                  sphere_to_cartesian module_dir "abc.sfp" None true disk)
           {| pos := Arr2 abc_positions; names := NArray ["A"; "B"; "C"];
              kind := "abc.sfp" |}).
  vm_compute. reflexivity.
Defined.

Lemma read_montage_three_names_witness :
  read_montage "abc.sfp" (Some ["A"; "B"; "C"]) None true disk
  = (Raise IndexError, ["/mne/montages/abc.sfp"]).
Proof.
  apply (proj2 (@read_montage_three_names F float_of_string one deg2rad
                  sphere_to_cartesian module_dir "abc.sfp" ["A"; "B"; "C"]
                  None true disk ltac:(simpl; lia))
           {| pos := Arr2 abc_positions; names := NArray ["A"; "B"; "C"];
              kind := "abc.sfp" |}).
  vm_compute. reflexivity.
Defined.

Lemma read_montage_unfiltered_shape_witness :
  exists rows,
    Arr2 abc_positions = Arr2 rows /\
    length rows = length ["A"; "B"; "C"] /\
    Forall (fun r : list F => length r = 3) rows.
Proof.
  apply (@read_montage_unfiltered_shape F float_of_string one deg2rad
           sphere_to_cartesian module_dir "abc.csd" None true disk
           {| pos := Arr2 abc_positions; names := NArray ["A"; "B"; "C"];
              kind := "abc.csd" |}
           ["/mne/montages/abc.csd"]).
  - right. right. reflexivity.
  - vm_compute. reflexivity.
Defined.

Lemma read_montage_csd_unused_columns_witness :
  read_montage "abc.csd" (Some ["A"]) None true disk
  = read_montage "abc.csd" (Some ["A"]) None true disk2.
Proof.
  apply (@read_montage_csd_unused_columns F float_of_string one deg2rad
           sphere_to_cartesian module_dir "abc.csd" (Some ["A"]) None true
           disk disk2 abc_csd abc_csd_other abc_csd_table abc_csd_other_table);
    vm_compute; reflexivity.
Defined.


Lemma read_montage_header_ignored_witness :
  read_montage "abc.txt" None None true disk
  = read_montage "abc.txt" None None true disk2.
Proof.
  apply (@read_montage_header_ignored F float_of_string one deg2rad
           sphere_to_cartesian module_dir "abc.txt" None None true disk disk2
           ["Site Theta Phi"] ["label theta phi (degrees)"] abc_txt_body);
    try reflexivity.
  left. reflexivity.
Defined.

Lemma read_montage_elc_preamble_witness :
  read_montage "abc.elc" None None true disk
  = read_montage "abc.elc" None None true disk2.
Proof.
  apply (@read_montage_elc_preamble F float_of_string one deg2rad
           sphere_to_cartesian module_dir "abc.elc" None None true disk disk2
           ["NumberPositions= 3"] abc_elc_body);
    reflexivity.
Defined.

Lemma read_montage_elc_no_positions_witness :
  read_montage "no_positions.elc" None None true disk2
  = (Ok {| pos := Arr1 []; names := NList []; kind := "no_positions.elc" |},
     ["/mne/montages/no_positions.elc"]).
Proof.
  apply (@read_montage_elc_no_positions F float_of_string one deg2rad
           sphere_to_cartesian module_dir "no_positions.elc" None true disk2
           no_positions_elc);
    reflexivity.
Defined.


Lemma collect_labels_line_witness :
  collect_labels [("  Fp1 " ++ NL); ("Fp2" ++ NL)] = ["Fp1 "; "Fp2"].
Proof.
  rewrite (@collect_labels_line "  Fp1 " ["Fp2" ++ NL] eq_refl).
  rewrite (@collect_labels_line "Fp2" [] eq_refl).
  reflexivity.
Defined.

Lemma repr_after_filtered_call_witness :
  1 <= 2 <= 2 /\
  Montage_repr {| pos := Arr0 "2"; names := NTuple ["A"; "C"]; kind := "abc.sfp" |}
  = Ok "<Montage | abc.sfp - Channels: A, C ...>".
Proof.
  apply (@repr_after_filtered_call F float_of_string one deg2rad
           sphere_to_cartesian module_dir "abc.sfp" ["A"; "C"] None true disk
           {| pos := Arr0 "2"; names := NTuple ["A"; "C"]; kind := "abc.sfp" |}
           ["/mne/montages/abc.sfp"]).
  vm_compute. reflexivity.
Defined.

End RunMore.
